(** * QuarterMaster: the directive dispatch of [app.py] and [ap2.py]

    A shallow embedding of the two Streamlit scripts of the repository.
    - [Py]   : the Python built-ins the scripts call on [str] values
               ([in], [str.replace], [str.strip], [str.splitlines], [int],
               [re.match] on the one pattern the parser uses);
    - [St]   : the effects of a script run (shell launches, Streamlit widgets,
               log records) as a finite tree of interactions;
    - [Lang] : the markers, the row pattern and the command templates the two
               scripts share;
    - [App]  : [app.py];
    - [Ap2]  : [ap2.py];
    - [Text] : vocabulary for the statements (lines, words, separators).

    Python [str] values are modelled as lists of 8-bit characters, read as the
    code points 0..255 (Latin-1): on that range the classes used below
    ([str.isspace], the line boundaries of [str.splitlines], the decimal
    digits of [int]) are exactly the ones written out here. *)

From Stdlib Require Import String Ascii List ZArith Lia Bool Arith.
From Stdlib Require Import DecimalString.
From Stdlib Require DecimalPos.
Import ListNotations.

Set Implicit Arguments.

(* ===================================================================== *)
(** ** Python built-ins on strings *)
(* ===================================================================== *)

Module Py.

Abbreviation str := (list ascii) (only parsing).

(** A string literal of the source. *)
Definition lit (s : string) : str := list_ascii_of_string s.

Definition code (c : ascii) : N := N_of_ascii c.

Definition str_eqb (a b : str) : bool :=
  if list_eq_dec ascii_dec a b then true else false.

(** [str.isspace] on one character; also the class [\s] of [re] for [str]
    patterns, and the characters [str.strip()] removes. *)
Definition is_space (c : ascii) : bool :=
  let n := code c in
  ((9 <=? n) && (n <=? 13) || (28 <=? n) && (n <=? 32)
   || (n =? 133) || (n =? 160))%N.

(** The line boundaries of [str.splitlines]. *)
Definition is_linebreak (c : ascii) : bool :=
  let n := code c in
  ((10 <=? n) && (n <=? 13) || (28 <=? n) && (n <=? 30) || (n =? 133))%N.

Definition LF : ascii := ascii_of_N 10.
Definition CR : ascii := ascii_of_N 13.
Definition DQUOTE : ascii := ascii_of_N 34.

(** Python truthiness of a [str]: [if s:]. *)
Definition truthy (s : str) : bool :=
  match s with [] => false | _ :: _ => true end.

(** [s.startswith(p)]. *)
Fixpoint starts_with (p s : str) : bool :=
  match p, s with
  | [], _ => true
  | _ :: _, [] => false
  | a :: p', b :: s' => Ascii.eqb a b && starts_with p' s'
  end.

(** [sub in s]. *)
Fixpoint contains (sub s : str) : bool :=
  starts_with sub s ||
  match s with
  | [] => false
  | _ :: s' => contains sub s'
  end.

(** [s.find(sub)], with [None] for Python's -1. *)
Fixpoint find (sub s : str) : option nat :=
  if starts_with sub s then Some 0
  else match s with
       | [] => None
       | _ :: s' => option_map S (find sub s')
       end.

(** [s.replace(old, new)]: every non-overlapping occurrence of [old],
    leftmost first.  [skip] counts the characters of an occurrence already
    replaced that are still to be passed over. *)
Fixpoint replace_from (old new : str) (skip : nat) (s : str) : str :=
  match s with
  | [] => []
  | c :: s' =>
      match skip with
      | S n => replace_from old new n s'
      | O => if starts_with old s
             then new ++ replace_from old new (length old - 1) s'
             else c :: replace_from old new 0 s'
      end
  end.

Definition replace (old new s : str) : str :=
  match old with
  | [] => new ++ flat_map (fun c => c :: new) s
  | _ :: _ => replace_from old new 0 s
  end.

Fixpoint drop_while (p : ascii -> bool) (s : str) : str :=
  match s with
  | [] => []
  | c :: s' => if p c then drop_while p s' else s
  end.

Definition lstrip (s : str) : str := drop_while is_space s.
Definition rstrip (s : str) : str := rev (drop_while is_space (rev s)).

(** [s.strip()]. *)
Definition strip (s : str) : str := rstrip (lstrip s).

(** [s.splitlines()]: the lines without their terminators; CR LF is one
    terminator; no empty last line after a final terminator. *)
Fixpoint splitlines (s : str) : list str :=
  match s with
  | [] => []
  | c :: s' =>
      if is_linebreak c then
        [] :: match s' with
              | d :: s'' =>
                  if Ascii.eqb c CR && Ascii.eqb d LF
                  then splitlines s'' else splitlines s'
              | [] => []
              end
      else match splitlines s' with
           | [] => [[c]]
           | l :: ls => (c :: l) :: ls
           end
  end.

(** *** [int(s)] *)

Definition is_digit (c : ascii) : bool := ((48 <=? code c) && (code c <=? 57))%N.
Definition digit_val (c : ascii) : Z := Z.of_N (code c) - 48.

(** The digits of a decimal literal: single underscores are allowed between
    digits only.  [prev] tells whether the previous character was a digit. *)
Fixpoint digits_from (acc : Z) (prev : bool) (d : str) : option Z :=
  match d with
  | [] => if prev then Some acc else None
  | c :: d' =>
      if is_digit c then digits_from (10 * acc + digit_val c) true d'
      else if Ascii.eqb c "_"%char
           then (if prev then digits_from acc false d' else None)
           else None
  end.

(** The whitespace [int] skips at both ends of its argument: the C
    whitespace, and from the characters above 127 the Unicode whitespace
    (NEL, NBSP).  The separators FS, GS, RS and US, which [str.strip()]
    removes, are not skipped. *)
Definition is_int_space (c : ascii) : bool :=
  let n := code c in
  ((9 <=? n) && (n <=? 13) || (n =? 32) || (n =? 133) || (n =? 160))%N.

Definition int_strip (s : str) : str :=
  rev (drop_while is_int_space (rev (drop_while is_int_space s))).

(** [sys.get_int_max_str_digits()], which the scripts leave at its default:
    a decimal literal with more digits is refused. *)
Definition int_max_str_digits : N := 4300.

(** The number of digits of a literal, its underscores left out. *)
Fixpoint count_digits (d : str) : N :=
  match d with
  | [] => 0
  | c :: d' => if is_digit c then N.succ (count_digits d') else count_digits d'
  end.

(** The value of the literal that follows the sign. *)
Definition int_literal (d : str) : option Z :=
  match digits_from 0 false d with
  | Some n => if (count_digits d <=? int_max_str_digits)%N then Some n else None
  | None => None
  end.

(** [int(s)] in base 10: whitespace at both ends is skipped, then one
    optional sign, then the digits, at most [int_max_str_digits] of them.
    [None] stands for [ValueError]. *)
Definition int (s : str) : option Z :=
  match int_strip s with
  | c :: d =>
      if Ascii.eqb c "+"%char then int_literal d
      else if Ascii.eqb c "-"%char then option_map Z.opp (int_literal d)
      else int_literal (c :: d)
  | [] => None
  end.

(** [str(n)] for an [int], as an f-string field renders it.  (Python
    refuses to render an [int] of more than [int_max_str_digits] digits;
    the scripts only render what [int] returned, which is below that.) *)
Definition str_of_int (n : Z) : str :=
  lit (NilZero.string_of_int (Z.to_int n)).

(** *** [re.match] for patterns that are a sequence of [+]-quantified
    character classes

    The parser's pattern [(.+?)\s+([^\s]+)\s+([^\s]+)\s+([^\s]+)] is a
    sequence of seven items, each a character class under [+] (lazy for the
    first, greedy for the others), four of them captured.  The matcher
    backtracks as [re] does: an item tries its candidate lengths in order of
    preference (longest first when greedy, shortest first when lazy) and
    keeps the first length for which the rest of the pattern matches. *)

Record re_item : Type := mk_item {
  item_class : ascii -> bool;
  item_greedy : bool;
  item_capture : bool
}.

(** [.] without DOTALL: anything but a line feed. *)
Definition re_dot (c : ascii) : bool := negb (Ascii.eqb c LF).
Definition re_space (c : ascii) : bool := is_space c.
Definition re_not_space (c : ascii) : bool := negb (is_space c).

(** Number of leading characters of [s] in the class [p]. *)
Fixpoint run_length (p : ascii -> bool) (s : str) : nat :=
  match s with
  | [] => 0
  | c :: s' => if p c then S (run_length p s') else 0
  end.

Fixpoint first_success {A B} (f : A -> option B) (l : list A) : option B :=
  match l with
  | [] => None
  | a :: l' => match f a with
               | Some b => Some b
               | None => first_success f l'
               end
  end.

Definition candidates (greedy : bool) (m : nat) : list nat :=
  if greedy then rev (seq 1 m) else seq 1 m.

(** The captured groups, in pattern order, of the first successful way to
    match [items] at the start of [s]. *)
Fixpoint match_items (items : list re_item) (s : str) : option (list str) :=
  match items with
  | [] => Some []
  | it :: rest =>
      first_success
        (fun n =>
           match match_items rest (skipn n s) with
           | Some groups =>
               Some (if item_capture it then firstn n s :: groups else groups)
           | None => None
           end)
        (candidates (item_greedy it) (run_length (item_class it) s))
  end.

(** [m.group(i)], for [i >= 1]. *)
Definition group (groups : list str) (i : nat) : str := nth (i - 1) groups [].

End Py.

(* ===================================================================== *)
(** ** The effects of one script run *)
(* ===================================================================== *)

Module St.
Import Py.

(** The exceptions the scripts name, and any other by its class name;
    for such a class [value_error] tells whether it derives from
    [ValueError], as [UnicodeDecodeError] does. *)
Inductive exn : Type :=
| CalledProcessError (text : str)
| FileNotFoundError
| ValueError
| IndexError
| OtherError (name : str) (value_error : bool).

(** What an [except ValueError] clause catches: the class and the classes
    that derive from it. *)
Definition is_value_error (e : exn) : bool :=
  match e with
  | ValueError => true
  | OtherError _ value_error => value_error
  | _ => false
  end.

(** What [subprocess.run(command, capture_output=True, text=True,
    shell=True, check=False)] gives back: a completed process, or an
    exception. *)
Inductive sp_result : Type :=
| Completed (returncode : Z) (stdout stderr : str)
| Raised (e : exn).

(** Streamlit output elements. *)
Inductive widget : Type :=
| ChatMessage (role : str)
| Write (text : str)
| Error (text : str)
| Success (text : str).

Inductive level : Type := INFO | WARNING | ERROR.

(** A script run: what it asks of its environment, and how it goes on for
    each answer.  [Log] carries the constant part of the record's text. *)
Inductive prog (A : Type) : Type :=
| Ret (a : A)
| Raise (e : exn)
| Subprocess (command : str) (k : sp_result -> prog A)
| Show (w : widget) (k : prog A)
| Radio (label : str) (options : list str) (k : str -> prog A)
| Button (label : str) (k : bool -> prog A)
| Log (lv : level) (text : str) (k : prog A).

Arguments Ret {A} a.
Arguments Raise {A} e.
Arguments Subprocess {A} command k.
Arguments Show {A} w k.
Arguments Radio {A} label options k.
Arguments Button {A} label k.
Arguments Log {A} lv text k.

Fixpoint bind {A B} (p : prog A) (f : A -> prog B) : prog B :=
  match p with
  | Ret a => f a
  | Raise e => Raise e
  | Subprocess c k => Subprocess c (fun r => bind (k r) f)
  | Show w k => Show w (bind k f)
  | Radio l os k => Radio l os (fun s => bind (k s) f)
  | Button l k => Button l (fun b => bind (k b) f)
  | Log lv t k => Log lv t (bind k f)
  end.

(** [try: p  except ...: h e]: [h] answers [None] for the exceptions that
    no clause catches. *)
Fixpoint try_except {A} (p : prog A) (h : exn -> option (prog A)) : prog A :=
  match p with
  | Ret a => Ret a
  | Raise e => match h e with Some q => q | None => Raise e end
  | Subprocess c k => Subprocess c (fun r => try_except (k r) h)
  | Show w k => Show w (try_except k h)
  | Radio l os k => Radio l os (fun s => try_except (k s) h)
  | Button l k => Button l (fun b => try_except (k b) h)
  | Log lv t k => Log lv t (try_except k h)
  end.

Definition subprocess_run (command : str) : prog sp_result :=
  Subprocess command (fun r => Ret r).
Definition st_chat_message (role : str) : prog unit := Show (ChatMessage role) (Ret tt).
Definition st_write (text : str) : prog unit := Show (Write text) (Ret tt).
Definition st_error (text : str) : prog unit := Show (Error text) (Ret tt).
Definition st_success (text : str) : prog unit := Show (Success text) (Ret tt).
Definition st_radio (label : str) (options : list str) : prog str :=
  Radio label options (fun s => Ret s).
Definition st_button (label : str) : prog bool := Button label (fun b => Ret b).
Definition logging (lv : level) (text : str) : prog unit := Log lv text (Ret tt).

Declare Scope prog_scope.
Delimit Scope prog_scope with prog.
Notation "x <- p ;; q" := (bind p (fun x => q))
  (at level 61, p at next level, right associativity) : prog_scope.
Notation "' pat <- p ;; q" := (bind p (fun x => match x with pat => q end))
  (at level 61, pat pattern, p at next level, right associativity) : prog_scope.
Notation "p ;; q" := (bind p (fun _ => q))
  (at level 61, right associativity) : prog_scope.

(** *** Observations on a run *)

(** No path of [p] launches a shell command. *)
Fixpoint runs_nothing {A} (p : prog A) : Prop :=
  match p with
  | Ret _ | Raise _ => True
  | Subprocess _ _ => False
  | Show _ k | Log _ _ k => runs_nothing k
  | Radio _ _ k => forall s, runs_nothing (k s)
  | Button _ k => forall b, runs_nothing (k b)
  end.

(** No path of [p] launches a shell command before some button of that path
    was pressed. *)
Fixpoint confirmed_first {A} (p : prog A) : Prop :=
  match p with
  | Ret _ | Raise _ => True
  | Subprocess _ _ => False
  | Show _ k | Log _ _ k => confirmed_first k
  | Radio _ _ k => forall s, confirmed_first (k s)
  | Button _ k => confirmed_first (k false)
  end.

(** Some path of [p] launches the shell command [c]. *)
Fixpoint may_run {A} (p : prog A) (c : str) : Prop :=
  match p with
  | Ret _ | Raise _ => False
  | Subprocess c' k => c' = c \/ exists r, may_run (k r) c
  | Show _ k | Log _ _ k => may_run k c
  | Radio _ _ k => exists s, may_run (k s) c
  | Button _ k => exists b, may_run (k b) c
  end.

(** No path of [p] ends in an uncaught exception. *)
Fixpoint no_raise {A} (p : prog A) : Prop :=
  match p with
  | Ret _ => True
  | Raise _ => False
  | Subprocess _ k => forall r, no_raise (k r)
  | Show _ k | Log _ _ k => no_raise k
  | Radio _ _ k => forall s, no_raise (k s)
  | Button _ k => forall b, no_raise (k b)
  end.

(** A scripted environment: the answer to each question the run asks. *)
Record env : Type := mk_env {
  shell : str -> sp_result;
  radio_choice : str -> list str -> str;
  button_pressed : str -> bool
}.

Inductive event : Type :=
| EvRun (command : str)
| EvShow (w : widget)
| EvRadio (label : str) (options : list str)
| EvButton (label : str)
| EvLog (lv : level) (text : str)
| EvRaise (e : exn).

(** The events of the run of [p] in the environment [e], in order. *)
Fixpoint trace {A} (e : env) (p : prog A) : list event :=
  match p with
  | Ret _ => []
  | Raise x => [EvRaise x]
  | Subprocess c k => EvRun c :: trace e (k (shell e c))
  | Show w k => EvShow w :: trace e k
  | Radio l os k => EvRadio l os :: trace e (k (radio_choice e l os))
  | Button l k => EvButton l :: trace e (k (button_pressed e l))
  | Log lv t k => EvLog lv t :: trace e k
  end.

(** What the run of [p] returns in the environment [e]; [None] when it ends
    in an uncaught exception. *)
Fixpoint result {A} (e : env) (p : prog A) : option A :=
  match p with
  | Ret a => Some a
  | Raise _ => None
  | Subprocess c k => result e (k (shell e c))
  | Show _ k | Log _ _ k => result e k
  | Radio l os k => result e (k (radio_choice e l os))
  | Button l k => result e (k (button_pressed e l))
  end.

(** The shell command [p] launches before it asks or shows anything else
    (log records apart). *)
Fixpoint first_command {A} (p : prog A) : option str :=
  match p with
  | Subprocess c _ => Some c
  | Log _ _ k => first_command k
  | _ => None
  end.

Definition is_log (ev : event) : bool :=
  match ev with EvLog _ _ => true | _ => false end.

(** A trace without its log records. *)
Definition visible (t : list event) : list event :=
  filter (fun ev => negb (is_log ev)) t.

(** The shell commands launched in a trace. *)
Fixpoint launches (t : list event) : list str :=
  match t with
  | [] => []
  | EvRun c :: t' => c :: launches t'
  | _ :: t' => launches t'
  end.

(** Two events that are the same, or the error element with the text [t1]
    on one side and with the text [t2] on the other. *)
Definition same_event (t1 t2 : str) (a b : event) : Prop :=
  a = b \/ (a = EvShow (Error t1) /\ b = EvShow (Error t2)).

Section Alike.

Variables t1 t2 : str.
Variable A : Type.
Variable same : bool -> A -> A -> Prop.

(** Two runs that ask the same questions in the same order and go on alike
    for each answer, log records apart.  Once a shell launch was answered
    by [FileNotFoundError] (the flag is then [true]) they may differ in one
    thing: where the first shows the error text [t1] the second may show
    [t2]; [same] relates the values they return. *)
Inductive alike : bool -> prog A -> prog A -> Prop :=
| alike_Ret m a b : same m a b -> alike m (Ret a) (Ret b)
| alike_Raise m e : alike m (Raise e) (Raise e)
| alike_Subprocess m c k1 k2 :
    (forall r, r <> Raised FileNotFoundError -> alike m (k1 r) (k2 r)) ->
    alike true (k1 (Raised FileNotFoundError))
               (k2 (Raised FileNotFoundError)) ->
    alike m (Subprocess c k1) (Subprocess c k2)
| alike_Show m w k1 k2 : alike m k1 k2 -> alike m (Show w k1) (Show w k2)
| alike_Show_text k1 k2 :
    alike true k1 k2 -> alike true (Show (Error t1) k1) (Show (Error t2) k2)
| alike_Radio m l os k1 k2 :
    (forall s, alike m (k1 s) (k2 s)) ->
    alike m (Radio l os k1) (Radio l os k2)
| alike_Button m l k1 k2 :
    (forall b, alike m (k1 b) (k2 b)) ->
    alike m (Button l k1) (Button l k2)
| alike_Log_l m lv t k p : alike m k p -> alike m (Log lv t k) p
| alike_Log_r m lv t p k : alike m p k -> alike m p (Log lv t k).

End Alike.

(** The outcomes of two [run_command]s: the same pair, or after
    [FileNotFoundError] the same [stdout] with the texts [t1] and [t2]. *)
Definition same_outcome (t1 t2 : str) (m : bool) (a b : str * str) : Prop :=
  fst a = fst b
  /\ (snd a = snd b \/ (m = true /\ snd a = t1 /\ snd b = t2)).

(** Returned values that have to be equal. *)
Definition same_value {A : Type} (m : bool) (a b : A) : Prop := a = b.

End St.

(* ===================================================================== *)
(** ** The markers and the parser's pattern, common to both scripts *)
(* ===================================================================== *)

Module Lang.
Import Py.

Definition WINGET_SEARCH : str := lit "WINGET_SEARCH:".
Definition WINGET_INSTALL : str := lit "WINGET_INSTALL:".
Definition POWERSHELL_SLEEP : str := lit "POWERSHELL_SLEEP:".

(** [r"(.+?)\s+([^\s]+)\s+([^\s]+)\s+([^\s]+)"] *)
Definition row_pattern : list re_item :=
  [ mk_item re_dot false true;
    mk_item re_space true false; mk_item re_not_space true true;
    mk_item re_space true false; mk_item re_not_space true true;
    mk_item re_space true false; mk_item re_not_space true true ].

(** One turn of the parser's loop: [results.append((name, id))] when the
    line matches. *)
Definition parse_line (results : list (str * str)) (line : str)
  : list (str * str) :=
  match match_items row_pattern line with
  | Some m =>
      let name := strip (group m 1) in
      let id := strip (group m 2) in
      results ++ [(name, id)]
  | None => results
  end.

(** [if results:] on what the parser returns ([None] or a list). *)
Definition truthy_results (results : option (list (str * str))) : bool :=
  match results with
  | Some (_ :: _) => true
  | _ => false
  end.

(** [[id for name, id in results if name == selected_app][0]] *)
Definition selected_id (results : list (str * str)) (selected_app : str)
  : St.prog str :=
  match filter (fun r => str_eqb (fst r) selected_app) results with
  | r :: _ => St.Ret (snd r)
  | [] => St.Raise St.IndexError
  end.

Definition search_command (search_term : str) : str :=
  lit "winget search " ++ [DQUOTE] ++ search_term ++ [DQUOTE].
Definition install_command (package_id : str) : str :=
  lit "winget install --id " ++ [DQUOTE] ++ package_id ++ [DQUOTE] ++ lit " -e".
Definition sleep_command (minutes_int : Z) : str :=
  lit "powershell -Command " ++ [DQUOTE]
  ++ lit "powercfg /change /standby-timeout-ac " ++ str_of_int minutes_int
  ++ [DQUOTE].

Definition no_applications : str :=
  lit "No applications found with the given name".
Definition installation_output (stdout : str) : str :=
  lit "Installation output:" ++ [LF] ++ stdout.

End Lang.

(* ===================================================================== *)
(** ** app.py *)
(* ===================================================================== *)

Module App.
Import Py St Lang.
Local Open Scope prog_scope.

Definition not_found_text : str :=
  lit "Command not found error check if winget is installed in your system.".

(** [run_command], lines 20-31. *)
Definition run_command (command : str) : prog (str * str) :=
  process <- subprocess_run command ;;
  match process with
  | Completed _ stdout stderr => Ret (stdout, stderr)
  | Raised (CalledProcessError e) => Ret ([], lit "Error: " ++ e)
  | Raised FileNotFoundError => Ret ([], not_found_text)
  | Raised e => Raise e
  end.

(** [parse_winget_search], lines 33-50.  The bare [return] gives [None]. *)
Definition parse_winget_search (output : str)
  : prog (option (list (str * str))) :=
  let lines := splitlines output in
  let startIndex := 3 in
  if length lines <=? startIndex then
    st_error no_applications ;;
    Ret None
  else
    Ret (Some (fold_left parse_line (skipn startIndex lines) [])).

(** Lines 124-129: the install button of the search results. *)
Definition install_selected (selected_app_id : str) : prog unit :=
  pressed <- st_button (lit "Install") ;;
  if (pressed : bool) then
    '(install_stdout, install_stderr) <- run_command (install_command selected_app_id) ;;
    if truthy install_stderr then st_error install_stderr
    else st_success (installation_output install_stdout)
  else Ret tt.

(** Lines 112-129. *)
Definition search_branch (response_text : str) : prog unit :=
  let search_term := strip (replace WINGET_SEARCH [] response_text) in
  '(stdout, stderr) <- run_command (search_command search_term) ;;
  if truthy stderr then st_error stderr
  else
    results <- parse_winget_search stdout ;;
    if truthy_results results then
      st_chat_message (lit "assistant") ;;
      st_write (lit "Here are the search results:") ;;
      let results := match results with Some l => l | None => [] end in
      selected_app <- st_radio (lit "Select an application to install:")
                               (map fst results) ;;
      selected_app_id <- selected_id results selected_app ;;
      install_selected selected_app_id
    else Ret tt.

(** Lines 132-138. *)
Definition install_branch (response_text : str) : prog unit :=
  let package_id := strip (replace WINGET_INSTALL [] response_text) in
  '(stdout, stderr) <- run_command (install_command package_id) ;;
  if truthy stderr then st_error stderr
  else
    st_chat_message (lit "assistant") ;;
    st_success (installation_output stdout).

Definition invalid_time : str :=
  lit "Invalid time provided for sleep settings. Please provide a number.".

(** Lines 141-152. *)
Definition sleep_branch (response_text : str) : prog unit :=
  let minutes := strip (replace POWERSHELL_SLEEP [] response_text) in
  try_except
    (minutes_int <- match int minutes with
                    | Some n => Ret n
                    | None => Raise ValueError
                    end ;;
     '(stdout, stderr) <- run_command (sleep_command minutes_int) ;;
     if truthy stderr then st_error stderr
     else
       st_chat_message (lit "assistant") ;;
       st_success (lit "Sleep timeout set to " ++ str_of_int minutes_int
                   ++ lit " minutes."))
    (fun e => if is_value_error e
              then Some (st_chat_message (lit "assistant") ;;
                         st_error invalid_time)
              else None).

Definition could_not_process : str :=
  lit "I couldn't process that request. I can help with Winget installations and setting the sleep timer.".

(** Lines 155-156. *)
Definition else_branch : prog unit :=
  st_chat_message (lit "assistant") ;;
  st_write could_not_process.

(** Lines 111-156: what the script does with the model's response. *)
Definition process_response (response_text : str) : prog unit :=
  if contains WINGET_SEARCH response_text then search_branch response_text
  else if contains WINGET_INSTALL response_text then install_branch response_text
  else if contains POWERSHELL_SLEEP response_text then sleep_branch response_text
  else else_branch.

End App.

(* ===================================================================== *)
(** ** ap2.py *)
(* ===================================================================== *)

Module Ap2.
Import Py St Lang.
Local Open Scope prog_scope.

Definition not_found_text : str :=
  lit "Command not found error. Check if winget is installed in your system.".

(** [run_command], lines 25-42. *)
Definition run_command (command : str) : prog (str * str) :=
  logging INFO (lit "Executing command: ") ;;
  process <- subprocess_run command ;;
  match process with
  | Completed _ stdout stderr =>
      logging INFO (lit "Command output: ") ;;
      (if truthy stderr then logging ERROR (lit "Command error: ") else Ret tt) ;;
      Ret (stdout, stderr)
  | Raised (CalledProcessError e) =>
      logging ERROR (lit "Command failed: ") ;;
      Ret ([], lit "Error: " ++ e)
  | Raised FileNotFoundError =>
      logging ERROR (lit "Command not found. Check if winget is installed.") ;;
      Ret ([], not_found_text)
  | Raised e => Raise e
  end.

(** [parse_winget_search], lines 44-64. *)
Definition parse_winget_search (output : str)
  : prog (option (list (str * str))) :=
  logging INFO (lit "Parsing winget search output.") ;;
  let lines := splitlines output in
  let startIndex := 3 in
  if length lines <=? startIndex then
    logging WARNING (lit "No applications found.") ;;
    st_error no_applications ;;
    Ret None
  else
    let results := fold_left parse_line (skipn startIndex lines) [] in
    logging INFO (lit "Parsed results: ") ;;
    Ret (Some results).

(** Lines 125-131. *)
Definition install_selected (selected_app_id : str) : prog unit :=
  pressed <- st_button (lit "Install") ;;
  if (pressed : bool) then
    logging INFO (lit "Installing application: ") ;;
    '(install_stdout, install_stderr) <- run_command (install_command selected_app_id) ;;
    if truthy install_stderr then st_error install_stderr
    else st_success (installation_output install_stdout)
  else Ret tt.

(** Lines 113-131. *)
Definition search_branch (response_text : str) : prog unit :=
  let search_term := strip (replace WINGET_SEARCH [] response_text) in
  logging INFO (lit "Performing winget search for: ") ;;
  '(stdout, stderr) <- run_command (search_command search_term) ;;
  if truthy stderr then st_error stderr
  else
    results <- parse_winget_search stdout ;;
    if truthy_results results then
      st_chat_message (lit "assistant") ;;
      st_write (lit "Here are the search results:") ;;
      let results := match results with Some l => l | None => [] end in
      selected_app <- st_radio (lit "Select an application to install:")
                               (map fst results) ;;
      selected_app_id <- selected_id results selected_app ;;
      install_selected selected_app_id
    else Ret tt.

(** Lines 133-142: the confirmation button and what follows it. *)
Definition else_branch (response_text : str) : prog unit :=
  st_chat_message (lit "assistant") ;;
  pressed <- st_button (lit "Confirm execution: " ++ response_text) ;;
  if (pressed : bool) then
    logging INFO (lit "Executing command: ") ;;
    '(stdout, stderr) <- run_command response_text ;;
    if truthy stderr then
      logging ERROR [] ;;
      st_error stderr
    else
      logging INFO (lit "Command executed successfully: ") ;;
      st_success (lit "Command executed:" ++ [LF] ++ stdout)
  else Ret tt.

(** Lines 112-142. *)
Definition process_response (response_text : str) : prog unit :=
  if contains WINGET_SEARCH response_text then search_branch response_text
  else else_branch response_text.

End Ap2.

(* ===================================================================== *)
(** ** Texts used to state the results *)
(* ===================================================================== *)

Module Text.
Import Py Lang.

(** Lines written out one after the other, each ended by a line feed. *)
Definition unlines (lines : list str) : str :=
  concat (map (fun l => l ++ [LF]) lines).

(** The records the parser's loop collects from [lines]. *)
Definition rows (lines : list str) : list (str * str) :=
  flat_map (parse_line []) lines.

(** A word: one or more characters, none of them whitespace. *)
Definition word (t : str) : bool := truthy t && forallb re_not_space t.

(** A separator: one or more whitespace characters. *)
Definition blank (ws : str) : bool := truthy ws && forallb re_space ws.

(** The exception classes [run_command] has an [except] clause for. *)
Definition caught_by_run_command (x : St.exn) : bool :=
  match x with
  | St.CalledProcessError _ | St.FileNotFoundError => true
  | _ => false
  end.

(** Lines written out one after the other, each ended by [eol]. *)
Definition unlines_with (eol : str) (lines : list str) : str :=
  concat (map (fun l => l ++ eol) lines).

(** The line terminators of a command's output: LF, or CR LF. *)
Definition is_eol (eol : str) : bool :=
  str_eqb eol [LF] || str_eqb eol [CR; LF].

(** The decimal digits and the sign that [str(n)] is made of. *)
Definition is_sign_or_digit (c : ascii) : bool :=
  is_digit c || Ascii.eqb c "-"%char.

(** At most one character, and that one whitespace: what may stand before
    the first field of a row without moving the fields. *)
Definition at_most_one_space (lead : str) : bool :=
  (length lead <=? 1) && forallb is_space lead.

(** [app.py] and [ap2.py] compared: alike up to the two texts their
    [run_command]s return for [FileNotFoundError]. *)
Definition scripts_alike {A : Type} (same : bool -> A -> A -> Prop)
           (m : bool) (p q : St.prog A) : Prop :=
  St.alike App.not_found_text Ap2.not_found_text same m p q.

Definition same_text_or_not_found (a b : St.event) : Prop :=
  St.same_event App.not_found_text Ap2.not_found_text a b.

End Text.

(* ===================================================================== *)
(** ** Facts on the string built-ins *)
(* ===================================================================== *)

Import Py St Lang Text.

Unset Implicit Arguments.

Lemma starts_with_app (p s : str) : starts_with p (p ++ s) = true.
Proof.
  induction p as [|a p IH]; simpl; [reflexivity|].
  now rewrite Ascii.eqb_refl, IH.
Qed.

Lemma starts_with_head (a b : ascii) (p s : str) :
  Ascii.eqb a b = false -> starts_with (a :: p) (b :: s) = false.
Proof. intros H; simpl; now rewrite H. Qed.

Lemma contains_cons_false (sub : str) (c : ascii) (s : str) :
  contains sub (c :: s) = false ->
  starts_with sub (c :: s) = false /\ contains sub s = false.
Proof. simpl; intros H; apply orb_false_iff in H; exact H. Qed.

(** Passing over the rest of an occurrence. *)
Lemma replace_from_pass (old new p s : str) :
  replace_from old new (length p) (p ++ s) = replace_from old new 0 s.
Proof. induction p as [|a p IH]; simpl; [reflexivity | exact IH]. Qed.

(** Where [old] does not occur, nothing is replaced. *)
Lemma replace_from_absent (old new s : str) :
  contains old s = false -> replace_from old new 0 s = s.
Proof.
  induction s as [|c s IH]; intros H; [reflexivity|].
  apply contains_cons_false in H; destruct H as [H1 H2].
  cbn [replace_from]; rewrite H1; f_equal; exact (IH H2).
Qed.

(** An occurrence at the very start is replaced, and the scan resumes right
    after it. *)
Lemma replace_from_occurrence (a : ascii) (old new s : str) :
  replace_from (a :: old) new 0 ((a :: old) ++ s)
  = new ++ replace_from (a :: old) new 0 s.
Proof.
  change ((a :: old) ++ s) with (a :: (old ++ s)).
  cbn [replace_from].
  change (a :: old ++ s) with ((a :: old) ++ s).
  rewrite starts_with_app; f_equal.
  replace (length (a :: old) - 1) with (length old) by (simpl; lia).
  apply replace_from_pass.
Qed.

(** Characters that cannot start an occurrence are copied. *)
Lemma replace_from_copy (a : ascii) (old new ws s : str) :
  forallb (fun c => negb (Ascii.eqb a c)) ws = true ->
  replace_from (a :: old) new 0 (ws ++ s)
  = ws ++ replace_from (a :: old) new 0 s.
Proof.
  induction ws as [|w ws IH]; intros H; [reflexivity|].
  simpl in H; apply andb_true_iff in H; destruct H as [Hw Hws].
  change ((w :: ws) ++ s) with (w :: (ws ++ s)).
  cbn [replace_from].
  rewrite starts_with_head by (now apply negb_true_iff).
  simpl; f_equal; exact (IH Hws).
Qed.

Lemma drop_while_app_all (p : ascii -> bool) (ws s : str) :
  forallb p ws = true -> drop_while p (ws ++ s) = drop_while p s.
Proof.
  induction ws as [|w ws IH]; intros H; [reflexivity|].
  simpl in H; apply andb_true_iff in H; destruct H as [Hw Hws].
  simpl; rewrite Hw; exact (IH Hws).
Qed.

Lemma drop_while_all (p : ascii -> bool) (ws : str) :
  forallb p ws = true -> drop_while p ws = [].
Proof.
  intros H; rewrite <- (app_nil_r ws), drop_while_app_all by exact H.
  reflexivity.
Qed.

Lemma drop_while_none (p : ascii -> bool) (s : str) :
  forallb (fun c => negb (p c)) s = true -> drop_while p s = s.
Proof.
  destruct s as [|c s]; [reflexivity|]; simpl; intros H.
  apply andb_true_iff in H; destruct H as [Hc _].
  apply negb_true_iff in Hc; now rewrite Hc.
Qed.

(** Leading whitespace does not survive [strip]. *)
Lemma strip_leading_space (ws s : str) :
  forallb is_space ws = true -> strip (ws ++ s) = strip s.
Proof.
  intros H; unfold strip, lstrip; now rewrite drop_while_app_all.
Qed.

Lemma strip_all_space (ws : str) :
  forallb is_space ws = true -> strip ws = [].
Proof.
  intros H; unfold strip, lstrip; now rewrite drop_while_all.
Qed.

(** A string without whitespace is its own [strip]. *)
Lemma strip_token (t : str) :
  forallb re_not_space t = true -> strip t = t.
Proof.
  intros H; unfold strip, lstrip, rstrip.
  rewrite (drop_while_none is_space t) by exact H.
  rewrite drop_while_none.
  - apply rev_involutive.
  - rewrite forallb_forall in *; intros c Hc; apply H.
    now apply in_rev.
Qed.

(** *** [splitlines] on text written line by line *)

Lemma splitlines_line (l rest : str) :
  forallb (fun c => negb (is_linebreak c)) l = true ->
  splitlines (l ++ LF :: rest) = l :: splitlines rest.
Proof.
  induction l as [|c l IH]; intros H.
  - simpl. destruct rest as [|d rest']; reflexivity.
  - simpl in H; apply andb_true_iff in H; destruct H as [Hc Hl].
    apply negb_true_iff in Hc.
    change ((c :: l) ++ LF :: rest) with (c :: (l ++ LF :: rest)).
    cbn [splitlines]; rewrite Hc, (IH Hl); reflexivity.
Qed.

Lemma splitlines_unlines (lines : list str) :
  forallb (forallb (fun c => negb (is_linebreak c))) lines = true ->
  splitlines (unlines lines) = lines.
Proof.
  induction lines as [|l lines IH]; intros H; [reflexivity|].
  simpl in H; apply andb_true_iff in H; destruct H as [Hl Hls].
  unfold unlines; cbn [map concat]; rewrite <- app_assoc.
  change ([LF] ++ ?x) with (LF :: x).
  rewrite splitlines_line by exact Hl.
  f_equal; exact (IH Hls).
Qed.

(** *** The backtracking matcher *)

Lemma run_length_app_all (p : ascii -> bool) (a s : str) :
  forallb p a = true -> run_length p (a ++ s) = length a + run_length p s.
Proof.
  induction a as [|c a IH]; intros H; [reflexivity|].
  simpl in H; apply andb_true_iff in H; destruct H as [Hc Ha].
  simpl; rewrite Hc, (IH Ha); reflexivity.
Qed.

(** A run of class [p] stops where a non-empty word of another class
    begins. *)
Lemma run_length_stop (p q : ascii -> bool) (t s : str) :
  (forall c, q c = true -> p c = false) ->
  t <> [] -> forallb q t = true -> run_length p (t ++ s) = 0.
Proof.
  intros Hpq Ht H; destruct t as [|c t]; [congruence|].
  simpl in H; apply andb_true_iff in H; destruct H as [Hc _].
  simpl; now rewrite (Hpq c Hc).
Qed.

Lemma space_not_word (c : ascii) : re_space c = true -> re_not_space c = false.
Proof. unfold re_space, re_not_space; intros H; now rewrite H. Qed.

Lemma word_not_space (c : ascii) : re_not_space c = true -> re_space c = false.
Proof. unfold re_space, re_not_space; intros H; now apply negb_true_iff. Qed.

Lemma word_is_dot (c : ascii) : re_not_space c = true -> re_dot c = true.
Proof.
  unfold re_not_space, re_dot; intros H.
  destruct (Ascii.eqb c LF) eqn:E; [|reflexivity].
  apply Ascii.eqb_eq in E; subst c; discriminate H.
Qed.

(** Greedy: the longest candidate is tried first. *)
Lemma first_success_longest {B} (f : nat -> option B) (m : nat) (b : B) :
  f (S m) = Some b -> first_success f (candidates true (S m)) = Some b.
Proof.
  intros H; unfold candidates.
  rewrite seq_S, rev_app_distr; simpl; now rewrite H.
Qed.

(** Lazy: the shortest candidate that succeeds is kept. *)
Lemma first_success_shortest {B} (f : nat -> option B) (a m k : nat) (b : B) :
  a <= k < a + m ->
  (forall j, a <= j < k -> f j = None) ->
  f k = Some b ->
  first_success f (seq a m) = Some b.
Proof.
  revert a; induction m as [|m IH]; intros a Hk Hnone Hb; [lia|].
  simpl. destruct (Nat.eq_dec a k) as [->|Hne].
  - now rewrite Hb.
  - rewrite (Hnone a) by lia.
    apply IH; [lia | intros j Hj; apply Hnone; lia | exact Hb].
Qed.

Lemma firstn_length_app (a s : str) : firstn (length a) (a ++ s) = a.
Proof.
  rewrite firstn_app, Nat.sub_diag, firstn_all; simpl; apply app_nil_r.
Qed.

Lemma skipn_length_app (a s : str) : skipn (length a) (a ++ s) = s.
Proof.
  rewrite skipn_app, Nat.sub_diag, skipn_all; reflexivity.
Qed.

(** One greedy item: it takes its whole run when the rest of the pattern
    matches what follows the run. *)
Lemma match_items_greedy (p : ascii -> bool) (cap : bool)
      (rest : list re_item) (a s : str) (g : list str) :
  a <> [] -> forallb p a = true -> run_length p s = 0 ->
  match_items rest s = Some g ->
  match_items (mk_item p true cap :: rest) (a ++ s)
  = Some (if cap then a :: g else g).
Proof.
  intros Ha Hp Hs Hg.
  cbn [match_items item_greedy item_class item_capture].
  rewrite run_length_app_all by exact Hp; rewrite Hs, Nat.add_0_r.
  destruct a as [|c a]; [congruence|].
  cbn [length]; apply first_success_longest.
  change (S (length a)) with (length (c :: a)).
  rewrite skipn_length_app, Hg, firstn_length_app; reflexivity.
Qed.

(** A greedy item fails outright on a string that does not start in its
    class. *)
Lemma match_items_greedy_none (p : ascii -> bool) (cap : bool)
      (rest : list re_item) (s : str) :
  run_length p s = 0 -> match_items (mk_item p true cap :: rest) s = None.
Proof.
  intros H; cbn [match_items item_greedy item_class]; rewrite H; reflexivity.
Qed.

(** *** The row pattern *)

(** What follows the name: [\s+([^\s]+)\s+([^\s]+)\s+([^\s]+)] on separators
    and words. *)
Lemma row_tail_match (ws1 t2 ws2 t3 ws3 t4 rest : str) :
  ws1 <> [] -> forallb re_space ws1 = true ->
  t2 <> [] -> forallb re_not_space t2 = true ->
  ws2 <> [] -> forallb re_space ws2 = true ->
  t3 <> [] -> forallb re_not_space t3 = true ->
  ws3 <> [] -> forallb re_space ws3 = true ->
  t4 <> [] -> forallb re_not_space t4 = true ->
  run_length re_not_space rest = 0 ->
  match_items (tl row_pattern) (ws1 ++ t2 ++ ws2 ++ t3 ++ ws3 ++ t4 ++ rest)
  = Some [t2; t3; t4].
Proof.
  intros Nw1 Sw1 Nt2 St2 Nw2 Sw2 Nt3 St3 Nw3 Sw3 Nt4 St4 Hrest.
  unfold row_pattern; cbn [tl].
  apply (@match_items_greedy re_space false _ ws1 _ [t2; t3; t4] Nw1 Sw1).
  { apply (@run_length_stop re_space re_not_space); auto using word_not_space. }
  apply (@match_items_greedy re_not_space true _ t2 _ [t3; t4] Nt2 St2).
  { apply (@run_length_stop re_not_space re_space); auto using space_not_word. }
  apply (@match_items_greedy re_space false _ ws2 _ [t3; t4] Nw2 Sw2).
  { apply (@run_length_stop re_space re_not_space); auto using word_not_space. }
  apply (@match_items_greedy re_not_space true _ t3 _ [t4] Nt3 St3).
  { apply (@run_length_stop re_not_space re_space); auto using space_not_word. }
  apply (@match_items_greedy re_space false _ ws3 _ [t4] Nw3 Sw3).
  { apply (@run_length_stop re_space re_not_space); auto using word_not_space. }
  apply (@match_items_greedy re_not_space true _ t4 _ [] Nt4 St4 Hrest).
  reflexivity.
Qed.

Lemma forallb_skipn {A} (p : A -> bool) (n : nat) (l : list A) :
  forallb p l = true -> forallb p (skipn n l) = true.
Proof.
  rewrite !forallb_forall; intros H x Hx; apply H.
  rewrite <- (firstn_skipn n l); apply in_or_app; now right.
Qed.

(** The lazy first group stops at the first place where the rest of the
    pattern can match: when no character of [pre] but perhaps the first is
    whitespace, that is the end of [pre]. *)
Lemma row_match_first (pre ws1 t2 ws2 t3 ws3 t4 rest : str) :
  pre <> [] -> forallb re_dot pre = true ->
  forallb re_not_space (tl pre) = true ->
  ws1 <> [] -> forallb re_space ws1 = true ->
  t2 <> [] -> forallb re_not_space t2 = true ->
  ws2 <> [] -> forallb re_space ws2 = true ->
  t3 <> [] -> forallb re_not_space t3 = true ->
  ws3 <> [] -> forallb re_space ws3 = true ->
  t4 <> [] -> forallb re_not_space t4 = true ->
  run_length re_not_space rest = 0 ->
  match_items row_pattern (pre ++ ws1 ++ t2 ++ ws2 ++ t3 ++ ws3 ++ t4 ++ rest)
  = Some [pre; t2; t3; t4].
Proof.
  intros Npre Dpre Spre Nw1 Sw1 Nt2 St2 Nw2 Sw2 Nt3 St3 Nw3 Sw3 Nt4 St4 Hrest.
  pose proof (row_tail_match ws1 t2 ws2 t3 ws3 t4 rest
                Nw1 Sw1 Nt2 St2 Nw2 Sw2 Nt3 St3 Nw3 Sw3 Nt4 St4 Hrest) as Htail.
  set (s := ws1 ++ t2 ++ ws2 ++ t3 ++ ws3 ++ t4 ++ rest) in *.
  change row_pattern with (mk_item re_dot false true :: tl row_pattern).
  cbn [match_items item_greedy item_class item_capture candidates].
  rewrite run_length_app_all by exact Dpre.
  assert (Hlen : 1 <= length pre) by (destruct pre; [congruence | simpl; lia]).
  apply (@first_success_shortest _ _ _ _ (length pre)).
  - lia.
  - intros j Hj.
    rewrite skipn_app.
    replace (j - length pre) with 0 by lia; rewrite skipn_O.
    unfold row_pattern; cbn [tl].
    rewrite match_items_greedy_none; [reflexivity|].
    destruct pre as [|c pre']; [congruence|].
    destruct j as [|j]; [lia|].
    cbn [skipn tl length] in *.
    apply (@run_length_stop re_space re_not_space).
    + exact word_not_space.
    + intros E; apply (f_equal (@length ascii)) in E.
      rewrite length_skipn in E; simpl in E; lia.
    + apply forallb_skipn; exact Spre.
  - rewrite skipn_length_app, Htail, firstn_length_app; reflexivity.
Qed.

(** A line that starts with whitespace: the lazy name is that one character,
    and the words move one group to the right. *)
Lemma row_match_indented (w : ascii) (ws t1 ws1 t2 ws2 t3 rest : str) :
  re_dot w = true ->
  ws <> [] -> forallb re_space ws = true ->
  t1 <> [] -> forallb re_not_space t1 = true ->
  ws1 <> [] -> forallb re_space ws1 = true ->
  t2 <> [] -> forallb re_not_space t2 = true ->
  ws2 <> [] -> forallb re_space ws2 = true ->
  t3 <> [] -> forallb re_not_space t3 = true ->
  run_length re_not_space rest = 0 ->
  match_items row_pattern (w :: ws ++ t1 ++ ws1 ++ t2 ++ ws2 ++ t3 ++ rest)
  = Some [[w]; t1; t2; t3].
Proof.
  intros Hw Nw Sw Nt1 St1 Nw1 Sw1 Nt2 St2 Nw2 Sw2 Nt3 St3 Hrest.
  pose proof (row_tail_match ws t1 ws1 t2 ws2 t3 rest
                Nw Sw Nt1 St1 Nw1 Sw1 Nt2 St2 Nw2 Sw2 Nt3 St3 Hrest) as Htail.
  set (s := ws ++ t1 ++ ws1 ++ t2 ++ ws2 ++ t3 ++ rest) in *.
  change row_pattern with (mk_item re_dot false true :: tl row_pattern).
  cbn [match_items item_greedy item_class item_capture candidates run_length].
  rewrite Hw.
  apply (@first_success_shortest _ _ _ _ 1).
  - lia.
  - intros j Hj; lia.
  - cbn [skipn firstn]; rewrite Htail; reflexivity.
Qed.

(** *** The parser's loop *)

Lemma word_inv (t : str) :
  word t = true -> t <> [] /\ forallb re_not_space t = true.
Proof.
  unfold word; intros H; apply andb_true_iff in H; destruct H as [H1 H2].
  split; [intros ->; discriminate H1 | exact H2].
Qed.

Lemma blank_inv (ws : str) :
  blank ws = true -> ws <> [] /\ forallb re_space ws = true.
Proof.
  unfold blank; intros H; apply andb_true_iff in H; destruct H as [H1 H2].
  split; [intros ->; discriminate H1 | exact H2].
Qed.

Lemma parse_line_acc (results : list (str * str)) (line : str) :
  parse_line results line = results ++ parse_line [] line.
Proof.
  unfold parse_line; destruct (match_items row_pattern line).
  - reflexivity.
  - symmetry; apply app_nil_r.
Qed.

Lemma fold_parse_line (lines : list str) (acc : list (str * str)) :
  fold_left parse_line lines acc = acc ++ rows lines.
Proof.
  revert acc; induction lines as [|l lines IH]; intros acc; simpl.
  - symmetry; apply app_nil_r.
  - rewrite IH, parse_line_acc, <- app_assoc; reflexivity.
Qed.

Lemma rows_app (a b : list str) : rows (a ++ b) = rows a ++ rows b.
Proof. unfold rows; apply flat_map_app. Qed.

Lemma rows_cons (l : str) (ls : list str) :
  rows (l :: ls) = parse_line [] l ++ rows ls.
Proof. reflexivity. Qed.

(** With more than the three header lines, [app.py]'s parser shows nothing
    and returns the records of the lines after the header. *)
Lemma app_parse_rows (output : str) (h1 h2 h3 l : str) (ls : list str) :
  splitlines output = h1 :: h2 :: h3 :: l :: ls ->
  App.parse_winget_search output = Ret (Some (rows (l :: ls))).
Proof.
  intros H; unfold App.parse_winget_search; rewrite H.
  cbn [length Nat.leb skipn]; rewrite fold_parse_line; reflexivity.
Qed.

Lemma ap2_parse_rows (output : str) (h1 h2 h3 l : str) (ls : list str) :
  splitlines output = h1 :: h2 :: h3 :: l :: ls ->
  Ap2.parse_winget_search output
  = Log INFO (lit "Parsing winget search output.")
      (Log INFO (lit "Parsed results: ") (Ret (Some (rows (l :: ls))))).
Proof.
  intros H; unfold Ap2.parse_winget_search; rewrite H.
  cbn [length Nat.leb skipn]; rewrite fold_parse_line; reflexivity.
Qed.

Lemma app_parse_rows_mid (output h1 h2 h3 : str) (before after : list str)
      (line : str) :
  splitlines output = h1 :: h2 :: h3 :: before ++ line :: after ->
  App.parse_winget_search output = Ret (Some (rows (before ++ line :: after))).
Proof.
  destruct before as [|b before]; intros H;
    exact (app_parse_rows _ _ _ _ _ _ H).
Qed.

Lemma ap2_parse_rows_mid (output h1 h2 h3 : str) (before after : list str)
      (line : str) :
  splitlines output = h1 :: h2 :: h3 :: before ++ line :: after ->
  Ap2.parse_winget_search output
  = Log INFO (lit "Parsing winget search output.")
      (Log INFO (lit "Parsed results: ")
         (Ret (Some (rows (before ++ line :: after))))).
Proof.
  destruct before as [|b before]; intros H;
    exact (ap2_parse_rows _ _ _ _ _ _ H).
Qed.

(** The lines of [splitlines] hold no line boundary. *)
Lemma splitlines_no_linebreak (s : str) :
  Forall (fun l => forallb (fun c => negb (is_linebreak c)) l = true)
         (splitlines s).
Proof.
  assert (G : forall n s, length s <= n ->
            Forall (fun l => forallb (fun c => negb (is_linebreak c)) l = true)
                   (splitlines s)).
  { clear s; induction n as [|n IH]; intros s Hn.
    - destruct s; [constructor | simpl in Hn; lia].
    - destruct s as [|c s']; [constructor|].
      simpl in Hn. cbn [splitlines].
      destruct (is_linebreak c) eqn:Ec.
      + constructor; [reflexivity|].
        destruct s' as [|d s'']; [constructor|].
        destruct (Ascii.eqb c CR && Ascii.eqb d LF).
        * apply IH; simpl in Hn; lia.
        * apply IH; simpl in *; lia.
      + pose proof (IH s' ltac:(lia)) as Hs'.
        destruct (splitlines s') as [|l ls].
        * constructor; [simpl; now rewrite Ec | constructor].
        * inversion Hs' as [|? ? Hl Hls]; subst.
          constructor; [simpl; now rewrite Ec, Hl | exact Hls]. }
  exact (G (length s) s (le_n _)).
Qed.

Lemma linebreak_free_dot (c : ascii) : is_linebreak c = false -> re_dot c = true.
Proof.
  intros H; unfold re_dot.
  destruct (Ascii.eqb c LF) eqn:E; [|reflexivity].
  apply Ascii.eqb_eq in E; subst c; discriminate H.
Qed.

(* ===================================================================== *)
(** ** Facts on script runs *)
(* ===================================================================== *)

Lemma trace_bind {A B} (e : env) (p : prog A) (f : A -> prog B) :
  trace e (bind p f)
  = trace e p ++ match result e p with
                 | Some a => trace e (f a)
                 | None => []
                 end.
Proof.
  induction p as [a|x|c k IH|w k IH|l os k IH|l k IH|lv t k IH]; simpl;
    try reflexivity; try (f_equal; auto).
Qed.

Lemma result_bind {A B} (e : env) (p : prog A) (f : A -> prog B) :
  result e (bind p f)
  = match result e p with
    | Some a => result e (f a)
    | None => None
    end.
Proof.
  induction p as [a|x|c k IH|w k IH|l os k IH|l k IH|lv t k IH]; simpl;
    auto.
Qed.

(** What the observations on a run say of its traces. *)
Lemma runs_nothing_trace {A} (p : prog A) (e : env) :
  runs_nothing p -> launches (trace e p) = [].
Proof.
  induction p as [a|x|c k IH|w k IH|l os k IH|l k IH|lv t k IH]; simpl;
    intros H; auto; contradiction.
Qed.

Lemma confirmed_first_trace {A} (p : prog A) (e : env) :
  (forall l, button_pressed e l = false) ->
  confirmed_first p -> launches (trace e p) = [].
Proof.
  intros He.
  induction p as [a|x|c k IH|w k IH|l os k IH|l k IH|lv t k IH]; simpl;
    intros H; auto; try contradiction.
  rewrite He; auto.
Qed.

Lemma alike_refl {A} (t1 t2 : str) (same : bool -> A -> A -> Prop)
      (m : bool) (p : prog A) :
  (forall m' a, same m' a a) -> alike t1 t2 same m p p.
Proof.
  intros Hs; revert m.
  induction p; intros m;
    [ apply alike_Ret | apply alike_Raise | apply alike_Subprocess
    | apply alike_Show | apply alike_Radio | apply alike_Button
    | apply alike_Log_l, alike_Log_r ]; auto.
Qed.

(** Runs that are alike stay so when they go on with continuations that
    are alike on the values returned. *)
Lemma alike_bind {A B} (t1 t2 : str) (sameA : bool -> A -> A -> Prop)
      (sameB : bool -> B -> B -> Prop) (m : bool) (p q : prog A)
      (f g : A -> prog B) :
  alike t1 t2 sameA m p q ->
  (forall m' a b, (m = true -> m' = true) -> sameA m' a b ->
                  alike t1 t2 sameB m' (f a) (g b)) ->
  alike t1 t2 sameB m (bind p f) (bind q g).
Proof.
  intros H; induction H as
      [ m a b Hab | m e | m c k1 k2 H1 IH1 H2 IH2 | m w k1 k2 H IH
      | k1 k2 H IH | m l os k1 k2 H IH | m l k1 k2 H IH
      | m lv t k p H IH | m lv t p k H IH ];
    intros Hfg; cbn [bind].
  - apply Hfg; auto.
  - apply alike_Raise.
  - apply alike_Subprocess.
    + intros r Hr; apply IH1; assumption.
    + apply IH2; intros m' a b Hm' Hab.
      apply Hfg; [intros _; apply Hm'; reflexivity | exact Hab].
  - apply alike_Show; auto.
  - apply alike_Show_text; auto.
  - apply alike_Radio; intros s; apply IH; assumption.
  - apply alike_Button; intros b; apply IH; assumption.
  - apply alike_Log_l; auto.
  - apply alike_Log_r; auto.
Qed.

(** Runs that are alike launch the same commands in every environment. *)
Lemma alike_launches {A} (t1 t2 : str) (same : bool -> A -> A -> Prop)
      (m : bool) (p q : prog A) (e : env) :
  alike t1 t2 same m p q -> launches (trace e p) = launches (trace e q).
Proof.
  intros H; induction H as
      [ m a b Hab | m x | m c k1 k2 H1 IH1 H2 IH2 | m w k1 k2 H IH
      | k1 k2 H IH | m l os k1 k2 H IH | m l k1 k2 H IH
      | m lv t k p H IH | m lv t p k H IH ];
    cbn [trace launches]; auto.
  f_equal.
  destruct (shell e c) as [rc o s|[t| | | |n v]] eqn:E;
    try (apply IH1; discriminate).
  exact IH2.
Qed.

(** Their visible traces agree event by event, up to the text of the error
    shown after a [FileNotFoundError]. *)
Lemma alike_trace {A} (t1 t2 : str) (same : bool -> A -> A -> Prop)
      (m : bool) (p q : prog A) (e : env) :
  alike t1 t2 same m p q ->
  Forall2 (same_event t1 t2) (visible (trace e p)) (visible (trace e q)).
Proof.
  intros H; induction H as
      [ m a b Hab | m x | m c k1 k2 H1 IH1 H2 IH2 | m w k1 k2 H IH
      | k1 k2 H IH | m l os k1 k2 H IH | m l k1 k2 H IH
      | m lv t k p H IH | m lv t p k H IH ];
    cbn [trace visible filter is_log negb]; auto.
  - constructor; [now left | constructor].
  - constructor; [now left|].
    destruct (shell e c) as [rc o s|[t| | | |n v]] eqn:E;
      try (apply IH1; discriminate).
    exact IH2.
  - constructor; [now left | exact IH].
  - constructor; [right; auto | exact IH].
  - constructor; [now left | apply IH].
  - constructor; [now left | apply IH].
Qed.

(** As long as no launch is answered by [FileNotFoundError], their visible
    traces are equal. *)
Lemma alike_trace_equal {A} (t1 t2 : str) (same : bool -> A -> A -> Prop)
      (p q : prog A) (e : env) :
  (forall c, shell e c <> Raised FileNotFoundError) ->
  alike t1 t2 same false p q ->
  visible (trace e p) = visible (trace e q).
Proof.
  intros He H.
  remember false as m eqn:Hm.
  induction H as
      [ m a b Hab | m x | m c k1 k2 H1 IH1 H2 IH2 | m w k1 k2 H IH
      | k1 k2 H IH | m l os k1 k2 H IH | m l k1 k2 H IH
      | m lv t k p H IH | m lv t p k H IH ];
    cbn [trace visible filter is_log negb]; try discriminate Hm;
    auto; f_equal; auto.
Qed.

(** [app.py]'s [run_command], answer by answer. *)
Lemma app_run_command_answers (command : str) :
  App.run_command command
  = Subprocess command (fun process =>
      match process with
      | Completed _ stdout stderr => Ret (stdout, stderr)
      | Raised (CalledProcessError t) => Ret ([], lit "Error: " ++ t)
      | Raised FileNotFoundError => Ret ([], App.not_found_text)
      | Raised x => Raise x
      end).
Proof.
  unfold App.run_command, subprocess_run; cbn [bind]; f_equal.
Qed.

(* ===================================================================== *)
(** ** The search-result parser *)
(* ===================================================================== *)

(** C4.  When the search output has at most three lines,
    [parse_winget_search] shows "No applications found with the given name"
    and returns [None], the empty result, without raising; the search flow
    that called it then does nothing more: its whole run is the search
    command followed by that one message, and it ends normally. *)
Theorem short_output_no_applications :
  forall output : str,
    length (splitlines output) <= 3 ->
    App.parse_winget_search output = Show (Error no_applications) (Ret None)
    /\ (forall (e : env) (response_text : str) (rc : Z),
          shell e (search_command
                     (strip (replace WINGET_SEARCH [] response_text)))
          = Completed rc output [] ->
          trace e (App.search_branch response_text)
          = [ EvRun (search_command
                       (strip (replace WINGET_SEARCH [] response_text)));
              EvShow (Error no_applications) ]
          /\ result e (App.search_branch response_text) = Some tt).
Proof.
  intros output Hlen.
  assert (Hparse : App.parse_winget_search output
                   = Show (Error no_applications) (Ret None)).
  { unfold App.parse_winget_search.
    apply Nat.leb_le in Hlen; rewrite Hlen; reflexivity. }
  split; [exact Hparse|].
  intros e response_text rc Hsh.
  unfold App.search_branch.
  rewrite app_run_command_answers.
  cbn [bind trace result]; rewrite Hsh.
  cbn [bind trace result truthy]; rewrite Hparse.
  split; reflexivity.
Qed.

(** C8.  A data line made of four words separated by whitespace, with at
    most one whitespace character before the first word and any whitespace
    after the fourth, yields the record (first word, second word): the
    lazily matched first group is the first word together with the
    character before it, [strip] removes that character, and the
    identifier is the second word.  (With two or more whitespace characters
    in front the fields move, see C10.)  A line that the four-field pattern
    does not match adds nothing to the result and shows nothing. *)
Theorem row_of_four_words :
  (forall (output h1 h2 h3 : str) (before after : list str)
          (lead t1 ws1 t2 ws2 t3 ws3 t4 trail : str),
      at_most_one_space lead = true ->
      word t1 = true -> blank ws1 = true ->
      word t2 = true -> blank ws2 = true ->
      word t3 = true -> blank ws3 = true ->
      word t4 = true ->
      forallb is_space trail = true ->
      splitlines output
      = h1 :: h2 :: h3
           :: before
              ++ (lead ++ t1 ++ ws1 ++ t2 ++ ws2 ++ t3 ++ ws3 ++ t4 ++ trail)
              :: after ->
      match_items row_pattern
        (lead ++ t1 ++ ws1 ++ t2 ++ ws2 ++ t3 ++ ws3 ++ t4 ++ trail)
      = Some [lead ++ t1; t2; t3; t4]
      /\ strip (lead ++ t1) = t1
      /\ App.parse_winget_search output
         = Ret (Some (rows before ++ (t1, t2) :: rows after)))
  /\ (forall (output h1 h2 h3 : str) (before after : list str) (line : str),
         match_items row_pattern line = None ->
         splitlines output = h1 :: h2 :: h3 :: before ++ line :: after ->
         App.parse_winget_search output
         = Ret (Some (rows before ++ rows after))).
Proof.
  split.
  - intros output h1 h2 h3 before after lead t1 ws1 t2 ws2 t3 ws3 t4 trail
           L W1 B1 W2 B2 W3 B3 W4 Htrail Hlines.
    apply word_inv in W1, W2, W3, W4; apply blank_inv in B1, B2, B3.
    destruct W1 as [Nt1 St1], W2 as [Nt2 St2], W3 as [Nt3 St3],
             W4 as [Nt4 St4], B1 as [Nw1 Sw1], B2 as [Nw2 Sw2],
             B3 as [Nw3 Sw3].
    unfold at_most_one_space in L; apply andb_true_iff in L.
    destruct L as [Llen Lsp]; apply Nat.leb_le in Llen.
    set (line := lead ++ t1 ++ ws1 ++ t2 ++ ws2 ++ t3 ++ ws3 ++ t4 ++ trail)
      in *.
    (* the line holds no line boundary, being one of [splitlines] *)
    assert (Hnolb : forallb (fun c => negb (is_linebreak c)) line = true).
    { pose proof (splitlines_no_linebreak output) as Hall.
      rewrite Hlines, Forall_forall in Hall; apply Hall.
      do 3 right; apply in_or_app; right; now left. }
    assert (Dlead : forallb re_dot lead = true).
    { unfold line in Hnolb; rewrite forallb_app in Hnolb.
      apply andb_true_iff in Hnolb; destruct Hnolb as [Hl _].
      rewrite forallb_forall in *; intros c Hc.
      apply linebreak_free_dot; specialize (Hl c Hc).
      now apply negb_true_iff. }
    assert (Dt1 : forallb re_dot t1 = true).
    { rewrite forallb_forall in *; intros c Hc; apply word_is_dot; auto. }
    assert (Htl : forallb re_not_space (tl (lead ++ t1)) = true).
    { destruct lead as [|w [|w' lead]]; cbn [app tl].
      - apply (forallb_skipn re_not_space 1 t1 St1).
      - exact St1.
      - simpl in Llen; lia. }
    assert (Hm : match_items row_pattern line
                 = Some [lead ++ t1; t2; t3; t4]).
    { unfold line; rewrite (app_assoc lead t1).
      apply row_match_first; auto.
      - intros E; apply app_eq_nil in E; tauto.
      - rewrite forallb_app, Dlead, Dt1; reflexivity.
      - destruct trail as [|c trail]; [reflexivity|].
        simpl in Htrail; apply andb_true_iff in Htrail.
        destruct Htrail as [Hc _].
        simpl; unfold re_not_space; now rewrite Hc. }
    assert (Hs : strip (lead ++ t1) = t1).
    { rewrite strip_leading_space by exact Lsp.
      apply strip_token; exact St1. }
    split; [exact Hm|]; split; [exact Hs|].
    rewrite (app_parse_rows_mid _ _ _ _ _ _ _ Hlines).
    rewrite rows_app, rows_cons; unfold parse_line at 1; rewrite Hm.
    cbn [group Nat.sub nth app].
    rewrite Hs, (strip_token t2) by assumption; reflexivity.
  - intros output h1 h2 h3 before after line Hnone Hlines.
    rewrite (app_parse_rows_mid _ _ _ _ _ _ _ Hlines).
    rewrite rows_app, rows_cons; unfold parse_line at 1; rewrite Hnone.
    reflexivity.
Qed.

Lemma short_output_no_applications_witness :
  length (splitlines (lit "No package found matching input criteria.")) <= 3
  /\ App.parse_winget_search (lit "No package found matching input criteria.")
     = Show (Error no_applications) (Ret None)
  /\ trace (mk_env (fun _ => Completed 0
                       (lit "No package found matching input criteria.") [])
                   (fun _ os => hd [] os) (fun _ => true))
           (App.search_branch (lit "WINGET_SEARCH: nosuchapp"))
     = [ EvRun (search_command (lit "nosuchapp"));
         EvShow (Error no_applications) ].
Proof.
  assert (H : length (splitlines
                        (lit "No package found matching input criteria."))
              <= 3) by (vm_compute; lia).
  split; [exact H|].
  split.
  - exact (proj1 (short_output_no_applications _ H)).
  - exact (proj1 (proj2 (short_output_no_applications _ H)
                    (mk_env (fun _ => Completed 0
                               (lit "No package found matching input criteria.")
                               [])
                            (fun _ os => hd [] os) (fun _ => true))
                    (lit "WINGET_SEARCH: nosuchapp") 0%Z eq_refl)).
Defined.

Lemma row_of_four_words_witness :
  App.parse_winget_search
    (unlines [ lit "Name   Id   Version   Source";
               lit "----------------------------";
               lit "";
               lit " 7-Zip   7zip.7zip   23.01   winget  " ])
  = Ret (Some [(lit "7-Zip", lit "7zip.7zip")])
  /\ match_items row_pattern (lit " 7-Zip   7zip.7zip   23.01   winget  ")
     = Some [lit " 7-Zip"; lit "7zip.7zip"; lit "23.01"; lit "winget"]
  /\ App.parse_winget_search
       (unlines [ lit "Name   Id   Version   Source";
                  lit "----------------------------";
                  lit "";
                  lit "7-Zip 7zip.7zip";
                  lit "7-Zip   7zip.7zip   23.01   winget" ])
     = Ret (Some [(lit "7-Zip", lit "7zip.7zip")]).
Proof.
  assert (H := proj1 row_of_four_words
                 (unlines [ lit "Name   Id   Version   Source";
                            lit "----------------------------";
                            lit "";
                            lit " 7-Zip   7zip.7zip   23.01   winget  " ])
                 (lit "Name   Id   Version   Source")
                 (lit "----------------------------") (lit "")
                 [] []
                 (lit " ") (lit "7-Zip") (lit "   ") (lit "7zip.7zip")
                 (lit "   ") (lit "23.01") (lit "   ") (lit "winget")
                 (lit "  ")
                 eq_refl eq_refl eq_refl eq_refl eq_refl eq_refl eq_refl
                 eq_refl eq_refl eq_refl).
  split; [exact (proj2 (proj2 H))|].
  split; [exact (proj1 H)|].
  exact (proj2 row_of_four_words
           (unlines [ lit "Name   Id   Version   Source";
                      lit "----------------------------";
                      lit "";
                      lit "7-Zip 7zip.7zip";
                      lit "7-Zip   7zip.7zip   23.01   winget" ])
           (lit "Name   Id   Version   Source")
           (lit "----------------------------") (lit "")
           [] [lit "7-Zip   7zip.7zip   23.01   winget"]
           (lit "7-Zip 7zip.7zip") eq_refl eq_refl).
Defined.

(** C10.  A line of the search output that starts with two or more
    whitespace characters followed by at least three words still matches the
    four-field pattern: the lazy first group is the first whitespace
    character alone, so the record's name is empty after [strip] and its
    identifier is the first word of the line.  Both scripts' parsers return
    that record. *)
Theorem indented_row_shifts_fields :
  forall (output h1 h2 h3 : str) (before after : list str)
         (w : ascii) (ws t1 ws1 t2 ws2 t3 rest : str),
    is_space w = true -> blank ws = true ->
    word t1 = true -> blank ws1 = true ->
    word t2 = true -> blank ws2 = true ->
    word t3 = true -> run_length re_not_space rest = 0 ->
    splitlines output
    = h1 :: h2 :: h3
         :: before ++ (w :: ws ++ t1 ++ ws1 ++ t2 ++ ws2 ++ t3 ++ rest) :: after ->
    match_items row_pattern (w :: ws ++ t1 ++ ws1 ++ t2 ++ ws2 ++ t3 ++ rest)
    = Some [[w]; t1; t2; t3]
    /\ App.parse_winget_search output
       = Ret (Some (rows before ++ ([], t1) :: rows after))
    /\ Ap2.parse_winget_search output
       = Log INFO (lit "Parsing winget search output.")
           (Log INFO (lit "Parsed results: ")
              (Ret (Some (rows before ++ ([], t1) :: rows after)))).
Proof.
  intros output h1 h2 h3 before after w ws t1 ws1 t2 ws2 t3 rest
         Sw B0 W1 B1 W2 B2 W3 Hrest Hlines.
  apply word_inv in W1, W2, W3; apply blank_inv in B0, B1, B2.
  destruct W1 as [Nt1 St1], W2 as [Nt2 St2], W3 as [Nt3 St3],
           B0 as [Nw0 Sw0], B1 as [Nw1 Sw1], B2 as [Nw2 Sw2].
  assert (Hdot : re_dot w = true).
  { pose proof (splitlines_no_linebreak output) as Hall.
    rewrite Hlines in Hall.
    rewrite Forall_forall in Hall.
    specialize (Hall (w :: ws ++ t1 ++ ws1 ++ t2 ++ ws2 ++ t3 ++ rest)).
    assert (Hin : In (w :: ws ++ t1 ++ ws1 ++ t2 ++ ws2 ++ t3 ++ rest)
                     (h1 :: h2 :: h3 :: before
                         ++ (w :: ws ++ t1 ++ ws1 ++ t2 ++ ws2 ++ t3 ++ rest)
                         :: after)).
    { do 3 right; apply in_or_app; right; now left. }
    specialize (Hall Hin); simpl in Hall.
    apply andb_true_iff in Hall; destruct Hall as [Hw _].
    apply linebreak_free_dot; now apply negb_true_iff. }
  assert (Hm : match_items row_pattern
                 (w :: ws ++ t1 ++ ws1 ++ t2 ++ ws2 ++ t3 ++ rest)
               = Some [[w]; t1; t2; t3]).
  { apply row_match_indented; auto. }
  assert (Hrow : rows (before
                         ++ (w :: ws ++ t1 ++ ws1 ++ t2 ++ ws2 ++ t3 ++ rest)
                         :: after)
                 = rows before ++ ([], t1) :: rows after).
  { rewrite rows_app, rows_cons; unfold parse_line at 1; rewrite Hm.
    cbn [group Nat.sub nth app].
    rewrite (strip_all_space [w]) by (simpl; now rewrite Sw).
    rewrite strip_token by assumption; reflexivity. }
  split; [exact Hm|].
  split.
  - rewrite (app_parse_rows_mid _ _ _ _ _ _ _ Hlines), Hrow; reflexivity.
  - rewrite (ap2_parse_rows_mid _ _ _ _ _ _ _ Hlines), Hrow; reflexivity.
Qed.

Lemma indented_row_shifts_fields_witness :
  App.parse_winget_search
    (unlines [ lit "Name   Id   Version   Source";
               lit "----------------------------";
               lit "";
               lit "  7-Zip   7zip.7zip   23.01   winget" ])
  = Ret (Some [([], lit "7-Zip")]).
Proof.
  exact (proj1 (proj2 (indented_row_shifts_fields
                  (unlines [ lit "Name   Id   Version   Source";
                             lit "----------------------------";
                             lit "";
                             lit "  7-Zip   7zip.7zip   23.01   winget" ])
                  (lit "Name   Id   Version   Source")
                  (lit "----------------------------") (lit "")
                  [] []
                  " "%char (lit " ") (lit "7-Zip") (lit "   ")
                  (lit "7zip.7zip") (lit "   ") (lit "23.01")
                  (lit "   winget")
                  eq_refl eq_refl eq_refl eq_refl eq_refl eq_refl eq_refl
                  eq_refl eq_refl))).
Defined.

(* ===================================================================== *)
(** ** The dispatch on the model's response *)
(* ===================================================================== *)

Lemma ap2_run_command_answers (command : str) :
  exists k,
    Ap2.run_command command
    = Log INFO (lit "Executing command: ") (Subprocess command k)
    /\ forall process,
        k process
        = match process with
          | Completed _ stdout stderr =>
              Log INFO (lit "Command output: ")
                (if truthy stderr
                 then Log ERROR (lit "Command error: ") (Ret (stdout, stderr))
                 else Ret (stdout, stderr))
          | Raised (CalledProcessError t) =>
              Log ERROR (lit "Command failed: ")
                (Ret ([], lit "Error: " ++ t))
          | Raised FileNotFoundError =>
              Log ERROR (lit "Command not found. Check if winget is installed.")
                (Ret ([], Ap2.not_found_text))
          | Raised x => Raise x
          end.
Proof.
  eexists; split; [reflexivity|].
  intros [rc o err|[t| | | |n]]; cbn; try reflexivity.
  destruct (truthy err); reflexivity.
Qed.

Lemma first_command_bind_app_run {B} (c : str) (f : str * str -> prog B) :
  first_command (bind (App.run_command c) f) = Some c.
Proof. rewrite app_run_command_answers; reflexivity. Qed.

Lemma first_command_app_search (r : str) :
  first_command (App.search_branch r)
  = Some (search_command (strip (replace WINGET_SEARCH [] r))).
Proof. unfold App.search_branch; apply first_command_bind_app_run. Qed.

Lemma first_command_app_install (r : str) :
  first_command (App.install_branch r)
  = Some (install_command (strip (replace WINGET_INSTALL [] r))).
Proof. unfold App.install_branch; apply first_command_bind_app_run. Qed.

Lemma first_command_ap2_search (r : str) :
  first_command (Ap2.search_branch r)
  = Some (search_command (strip (replace WINGET_SEARCH [] r))).
Proof.
  unfold Ap2.search_branch, Ap2.run_command, logging, subprocess_run.
  reflexivity.
Qed.

(** The sleep branch when the payload is no integer: the handler of
    [ValueError] runs. *)
Lemma app_sleep_invalid (r : str) :
  int (strip (replace POWERSHELL_SLEEP [] r)) = None ->
  App.sleep_branch r
  = Show (ChatMessage (lit "assistant")) (Show (Error App.invalid_time) (Ret tt)).
Proof. intros H; unfold App.sleep_branch; rewrite H; reflexivity. Qed.

Lemma first_command_app_sleep (r : str) (n : Z) :
  int (strip (replace POWERSHELL_SLEEP [] r)) = Some n ->
  first_command (App.sleep_branch r) = Some (sleep_command n).
Proof.
  intros H; unfold App.sleep_branch; rewrite H.
  cbn [bind]; rewrite app_run_command_answers; reflexivity.
Qed.

(** Deleting a marker that only whitespace precedes and that does not occur
    again leaves, once trimmed, the text after the marker, trimmed. *)
Lemma strip_replace_leading_marker (a : ascii) (m ws rest : str) :
  is_space a = false ->
  forallb is_space ws = true ->
  contains (a :: m) rest = false ->
  strip (replace (a :: m) [] (ws ++ (a :: m) ++ rest)) = strip rest.
Proof.
  intros Ha Hws Hrest; unfold replace.
  rewrite replace_from_copy.
  - rewrite replace_from_occurrence, (replace_from_absent _ _ _ Hrest).
    cbn [app]; apply strip_leading_space; exact Hws.
  - rewrite forallb_forall in *; intros c Hc; specialize (Hws c Hc).
    apply negb_true_iff.
    destruct (Ascii.eqb a c) eqn:E; [|reflexivity].
    apply Ascii.eqb_eq in E; subst c; congruence.
Qed.

(** C1 (as amended).  In each branch the payload put in the command is the
    whole response with every occurrence of the branch's marker deleted,
    then trimmed.  It is the text after the marker, trimmed, when nothing
    but whitespace precedes the marker and the marker does not occur again
    after it. *)
Theorem payload_is_response_without_marker :
  (forall r : str,
      contains WINGET_SEARCH r = true ->
      first_command (App.process_response r)
      = Some (search_command (strip (replace WINGET_SEARCH [] r)))
      /\ first_command (Ap2.process_response r)
         = Some (search_command (strip (replace WINGET_SEARCH [] r))))
  /\ (forall r : str,
         contains WINGET_SEARCH r = false ->
         contains WINGET_INSTALL r = true ->
         first_command (App.process_response r)
         = Some (install_command (strip (replace WINGET_INSTALL [] r))))
  /\ (forall (r : str) (n : Z),
         contains WINGET_SEARCH r = false ->
         contains WINGET_INSTALL r = false ->
         contains POWERSHELL_SLEEP r = true ->
         int (strip (replace POWERSHELL_SLEEP [] r)) = Some n ->
         first_command (App.process_response r) = Some (sleep_command n))
  /\ (forall marker ws rest : str,
         In marker [WINGET_SEARCH; WINGET_INSTALL; POWERSHELL_SLEEP] ->
         forallb is_space ws = true ->
         contains marker rest = false ->
         strip (replace marker [] (ws ++ marker ++ rest)) = strip rest).
Proof.
  split; [|split; [|split]].
  - intros r H; unfold App.process_response, Ap2.process_response; rewrite H.
    split; [apply first_command_app_search | apply first_command_ap2_search].
  - intros r H1 H2; unfold App.process_response; rewrite H1, H2.
    apply first_command_app_install.
  - intros r n H1 H2 H3 Hn; unfold App.process_response; rewrite H1, H2, H3.
    apply first_command_app_sleep; exact Hn.
  - intros marker ws rest Hin Hws Hrest.
    destruct Hin as [<-|[<-|[<-|[]]]];
      apply strip_replace_leading_marker; auto.
Qed.

Lemma payload_is_response_without_marker_witness :
  first_command (App.process_response (lit "WINGET_SEARCH: vscode"))
  = Some (search_command (lit "vscode"))
  /\ first_command
       (App.process_response (lit "WINGET_INSTALL: Microsoft.VisualStudioCode"))
     = Some (install_command (lit "Microsoft.VisualStudioCode"))
  /\ first_command (App.process_response (lit "POWERSHELL_SLEEP: 30"))
     = Some (sleep_command 30)
  /\ strip (replace WINGET_SEARCH [] (lit " " ++ WINGET_SEARCH ++ lit " 7zip "))
     = lit "7zip".
Proof.
  split; [|split; [|split]].
  - exact (proj1 (proj1 payload_is_response_without_marker
                    (lit "WINGET_SEARCH: vscode") eq_refl)).
  - exact (proj1 (proj2 payload_is_response_without_marker)
             (lit "WINGET_INSTALL: Microsoft.VisualStudioCode")
             eq_refl eq_refl).
  - exact (proj1 (proj2 (proj2 payload_is_response_without_marker))
             (lit "POWERSHELL_SLEEP: 30") 30%Z eq_refl eq_refl eq_refl eq_refl).
  - exact (proj2 (proj2 (proj2 payload_is_response_without_marker))
             WINGET_SEARCH (lit " ") (lit " 7zip ")
             (or_introl eq_refl) eq_refl eq_refl).
Defined.

(** C1 as stated fails: the text before the marker stays in the payload.
    For ["Sure! WINGET_INSTALL: a.b"] the text after the marker, trimmed, is
    ["a.b"], and the command is built from ["Sure!  a.b"]. *)
Lemma payload_keeps_text_before_marker :
  contains WINGET_INSTALL (lit "Sure! WINGET_INSTALL: a.b") = true
  /\ lit "Sure! WINGET_INSTALL: a.b"
     = lit "Sure! " ++ WINGET_INSTALL ++ lit " a.b"
  /\ strip (lit " a.b") = lit "a.b"
  /\ first_command (App.process_response (lit "Sure! WINGET_INSTALL: a.b"))
     = Some (install_command (lit "Sure!  a.b"))
  /\ first_command (App.process_response (lit "Sure! WINGET_INSTALL: a.b"))
     <> Some (install_command (strip (lit " a.b"))).
Proof.
  repeat split; try reflexivity.
  vm_compute; discriminate.
Qed.

(** C3 (as amended).  A response with more than one marker is dispatched by
    the fixed order of the [if]/[elif] chain, whatever the positions of the
    markers: the search branch when [WINGET_SEARCH:] occurs at all, else the
    install branch when [WINGET_INSTALL:] occurs, the sleep branch coming
    last. *)
Theorem dispatch_by_fixed_priority :
  forall r : str,
    (contains WINGET_SEARCH r = true ->
     contains WINGET_INSTALL r = true \/ contains POWERSHELL_SLEEP r = true ->
     App.process_response r = App.search_branch r
     /\ first_command (App.process_response r)
        = Some (search_command (strip (replace WINGET_SEARCH [] r))))
    /\ (contains WINGET_SEARCH r = false ->
        contains WINGET_INSTALL r = true ->
        contains POWERSHELL_SLEEP r = true ->
        App.process_response r = App.install_branch r
        /\ first_command (App.process_response r)
           = Some (install_command (strip (replace WINGET_INSTALL [] r)))).
Proof.
  intros r; split.
  - intros H _; unfold App.process_response; rewrite H.
    split; [reflexivity | apply first_command_app_search].
  - intros H1 H2 _; unfold App.process_response; rewrite H1, H2.
    split; [reflexivity | apply first_command_app_install].
Qed.

Lemma dispatch_by_fixed_priority_witness :
  first_command
    (App.process_response (lit "WINGET_INSTALL: a WINGET_SEARCH: b"))
  = Some (search_command (lit "WINGET_INSTALL: a  b"))
  /\ first_command
       (App.process_response (lit "POWERSHELL_SLEEP: 5 WINGET_INSTALL: a"))
     = Some (install_command (lit "POWERSHELL_SLEEP: 5  a")).
Proof.
  split.
  - exact (proj2 (proj1 (dispatch_by_fixed_priority
                           (lit "WINGET_INSTALL: a WINGET_SEARCH: b"))
                    eq_refl (or_introl eq_refl))).
  - exact (proj2 (proj2 (dispatch_by_fixed_priority
                           (lit "POWERSHELL_SLEEP: 5 WINGET_INSTALL: a"))
                    eq_refl eq_refl eq_refl)).
Defined.

(** C3 as stated fails: in ["WINGET_INSTALL: a WINGET_SEARCH: b"] the
    install marker comes first (position 0, the search marker at 18), and
    the search branch runs: the first command is the search, not the
    install the other branch would launch. *)
Lemma earliest_marker_not_selected :
  find WINGET_INSTALL (lit "WINGET_INSTALL: a WINGET_SEARCH: b") = Some 0
  /\ find WINGET_SEARCH (lit "WINGET_INSTALL: a WINGET_SEARCH: b") = Some 18
  /\ App.process_response (lit "WINGET_INSTALL: a WINGET_SEARCH: b")
     = App.search_branch (lit "WINGET_INSTALL: a WINGET_SEARCH: b")
  /\ first_command
       (App.process_response (lit "WINGET_INSTALL: a WINGET_SEARCH: b"))
     = Some (search_command (lit "WINGET_INSTALL: a  b"))
  /\ first_command
       (App.process_response (lit "WINGET_INSTALL: a WINGET_SEARCH: b"))
     <> first_command
          (App.install_branch (lit "WINGET_INSTALL: a WINGET_SEARCH: b")).
Proof.
  repeat split; try reflexivity.
  vm_compute; discriminate.
Qed.

(** C2.  A response with none of the three markers launches nothing without
    a confirmation: [app.py] shows its "I couldn't process that request"
    message and launches no command on any path; [ap2.py] shows the button
    "Confirm execution: <response>", launches nothing on the paths where the
    button is not pressed, and the only command it can launch at all is the
    response text itself, first thing after the button is pressed. *)
Theorem unrecognized_response_needs_confirmation :
  forall r : str,
    contains WINGET_SEARCH r = false ->
    contains WINGET_INSTALL r = false ->
    contains POWERSHELL_SLEEP r = false ->
    App.process_response r
    = Show (ChatMessage (lit "assistant"))
        (Show (Write App.could_not_process) (Ret tt))
    /\ runs_nothing (App.process_response r)
    /\ confirmed_first (Ap2.process_response r)
    /\ (forall c, may_run (Ap2.process_response r) c -> c = r)
    /\ (forall e : env,
           launches (trace e (App.process_response r)) = []
           /\ ((forall l, button_pressed e l = false) ->
               launches (trace e (Ap2.process_response r)) = []))
    /\ (exists k,
           Ap2.process_response r
           = Show (ChatMessage (lit "assistant"))
               (Button (lit "Confirm execution: " ++ r) k)
           /\ k false = Ret tt
           /\ first_command (k true) = Some r).
Proof.
  intros r H1 H2 H3.
  unfold App.process_response, Ap2.process_response; rewrite H1, H2, H3.
  split; [reflexivity|].
  split; [exact I|].
  split; [exact I|].
  split; [|split].
  2:{ intros e; split.
      - apply runs_nothing_trace; exact I.
      - intros He; apply confirmed_first_trace; [exact He | exact I]. }
  - intros c Hc; cbn in Hc.
    destruct Hc as [b Hc]; destruct b; cbn in Hc; [|contradiction].
    destruct Hc as [Hc|[res Hc]]; [now symmetry|].
    destruct res as [rc o err|[t| | | |n]]; cbn in Hc; try contradiction.
    destruct err; cbn in Hc; contradiction.
  - eexists; split; [reflexivity|]; split; reflexivity.
Qed.

Lemma unrecognized_response_needs_confirmation_witness :
  runs_nothing (App.process_response (lit "I don't understand"))
  /\ confirmed_first (Ap2.process_response (lit "I don't understand")).
Proof.
  split.
  - exact (proj1 (proj2 (unrecognized_response_needs_confirmation
                           (lit "I don't understand")
                           eq_refl eq_refl eq_refl))).
  - exact (proj1 (proj2 (proj2 (unrecognized_response_needs_confirmation
                                  (lit "I don't understand")
                                  eq_refl eq_refl eq_refl)))).
Defined.

(* ===================================================================== *)
(** ** Command outcomes *)
(* ===================================================================== *)

Lemma truthy_nonempty (s : str) : s <> [] -> truthy s = true.
Proof. destruct s; [congruence | reflexivity]. Qed.

Lemma visible_app (a b : list event) : visible (a ++ b) = visible a ++ visible b.
Proof. unfold visible; apply filter_app. Qed.

(** A body that returns normally never reaches the handlers of its [try]. *)
Lemma trace_try_except_ok {A} (e : env) (p : prog A)
      (h : exn -> option (prog A)) (a : A) :
  result e p = Some a -> trace e (try_except p h) = trace e p.
Proof.
  induction p as [a'|x|c k IH|w k IH|l os k IH|l k IH|lv t k IH]; simpl;
    intros H; try discriminate; try reflexivity; f_equal; auto.
Qed.

Lemma app_run_trace (e : env) (c : str) (x : str * str) :
  result e (App.run_command c) = Some x ->
  trace e (App.run_command c) = [EvRun c].
Proof.
  rewrite app_run_command_answers; cbn [result trace].
  destruct (shell e c) as [rc o s|[t| | | |n]]; cbn; intros H;
    try reflexivity; discriminate H.
Qed.

Lemma ap2_run_trace (e : env) (c : str) (x : str * str) :
  result e (Ap2.run_command c) = Some x ->
  visible (trace e (Ap2.run_command c)) = [EvRun c].
Proof.
  destruct (ap2_run_command_answers c) as [k [-> Hk]]; cbn [result trace].
  rewrite Hk.
  destruct (shell e c) as [rc o s|[t| | | |n]]; cbn; intros H;
    try reflexivity; try discriminate H.
  destruct (truthy s); reflexivity.
Qed.

(** C5.  Whenever [run_command] returns an outcome whose [stderr] is not
    empty, whatever its [stdout], the flow shows that [stderr] as an error
    and stops there: no success element, no further command.  This holds
    for the search command, the install after a selection, the direct
    install and the sleep command of [app.py], and for the search command,
    the install after a selection and the confirmed raw command of
    [ap2.py] (log records left out). *)
Theorem nonempty_stderr_reports_error :
  forall (e : env) (out err : str),
    err <> [] ->
    (forall r,
        result e (App.run_command
                    (search_command (strip (replace WINGET_SEARCH [] r))))
        = Some (out, err) ->
        trace e (App.search_branch r)
        = [ EvRun (search_command (strip (replace WINGET_SEARCH [] r)));
            EvShow (Error err) ])
    /\ (forall id,
           button_pressed e (lit "Install") = true ->
           result e (App.run_command (install_command id)) = Some (out, err) ->
           trace e (App.install_selected id)
           = [ EvButton (lit "Install"); EvRun (install_command id);
               EvShow (Error err) ])
    /\ (forall r,
           result e (App.run_command
                       (install_command (strip (replace WINGET_INSTALL [] r))))
           = Some (out, err) ->
           trace e (App.install_branch r)
           = [ EvRun (install_command (strip (replace WINGET_INSTALL [] r)));
               EvShow (Error err) ])
    /\ (forall r n,
           int (strip (replace POWERSHELL_SLEEP [] r)) = Some n ->
           result e (App.run_command (sleep_command n)) = Some (out, err) ->
           trace e (App.sleep_branch r)
           = [ EvRun (sleep_command n); EvShow (Error err) ])
    /\ (forall r,
           result e (Ap2.run_command
                       (search_command (strip (replace WINGET_SEARCH [] r))))
           = Some (out, err) ->
           visible (trace e (Ap2.search_branch r))
           = [ EvRun (search_command (strip (replace WINGET_SEARCH [] r)));
               EvShow (Error err) ])
    /\ (forall id,
           button_pressed e (lit "Install") = true ->
           result e (Ap2.run_command (install_command id)) = Some (out, err) ->
           visible (trace e (Ap2.install_selected id))
           = [ EvButton (lit "Install"); EvRun (install_command id);
               EvShow (Error err) ])
    /\ (forall r,
           button_pressed e (lit "Confirm execution: " ++ r) = true ->
           result e (Ap2.run_command r) = Some (out, err) ->
           visible (trace e (Ap2.else_branch r))
           = [ EvShow (ChatMessage (lit "assistant"));
               EvButton (lit "Confirm execution: " ++ r);
               EvRun r; EvShow (Error err) ]).
Proof.
  intros e out err Herr.
  pose proof (truthy_nonempty err Herr) as Ht.
  repeat split.
  - intros r H; unfold App.search_branch.
    rewrite trace_bind, H, (app_run_trace _ _ _ H), Ht; reflexivity.
  - intros id Hb H; unfold App.install_selected, st_button.
    cbn [bind trace]; rewrite Hb.
    rewrite trace_bind, H, (app_run_trace _ _ _ H), Ht; reflexivity.
  - intros r H; unfold App.install_branch.
    rewrite trace_bind, H, (app_run_trace _ _ _ H), Ht; reflexivity.
  - intros r n Hn H; unfold App.sleep_branch; rewrite Hn; cbn [bind].
    rewrite (trace_try_except_ok e _ _ tt).
    + rewrite trace_bind, H, (app_run_trace _ _ _ H), Ht; reflexivity.
    + rewrite result_bind, H, Ht; reflexivity.
  - intros r H; unfold Ap2.search_branch, logging; cbn [bind trace].
    rewrite trace_bind, H, Ht.
    change (?x :: ?l ++ ?m) with ((x :: l) ++ m).
    rewrite visible_app.
    change (visible (EvLog ?a ?b :: ?l)) with (visible l).
    rewrite (ap2_run_trace _ _ _ H); reflexivity.
  - intros id Hb H; unfold Ap2.install_selected, st_button, logging.
    cbn [bind trace]; rewrite Hb; cbn [bind trace].
    rewrite trace_bind, H, Ht.
    change (?x :: ?y :: ?l ++ ?m) with ((x :: y :: l) ++ m).
    rewrite visible_app.
    change (visible (?x :: EvLog ?a ?b :: ?l)) with (x :: visible l).
    rewrite (ap2_run_trace _ _ _ H); reflexivity.
  - intros r Hb H; unfold Ap2.else_branch, st_chat_message, st_button, logging.
    cbn [bind trace]; rewrite Hb; cbn [bind trace].
    rewrite trace_bind, H, Ht.
    change (?x :: ?y :: ?z :: ?l ++ ?m) with ((x :: y :: z :: l) ++ m).
    rewrite visible_app.
    change (visible (?x :: ?y :: EvLog ?a ?b :: ?l)) with (x :: y :: visible l).
    rewrite (ap2_run_trace _ _ _ H); reflexivity.
Qed.

Lemma nonempty_stderr_reports_error_witness :
  trace (mk_env (fun _ => Completed 1 (lit "Found 7-Zip [7zip.7zip]")
                                    (lit "Access is denied."))
                (fun _ os => hd [] os) (fun _ => true))
        (App.install_branch (lit "WINGET_INSTALL: 7zip.7zip"))
  = [ EvRun (install_command (lit "7zip.7zip"));
      EvShow (Error (lit "Access is denied.")) ].
Proof.
  apply (proj1 (proj2 (proj2
           (nonempty_stderr_reports_error
              (mk_env (fun _ => Completed 1 (lit "Found 7-Zip [7zip.7zip]")
                                          (lit "Access is denied."))
                      (fun _ os => hd [] os) (fun _ => true))
              (lit "Found 7-Zip [7zip.7zip]") (lit "Access is denied.")
              ltac:(discriminate))))
           (lit "WINGET_INSTALL: 7zip.7zip")).
  reflexivity.
Defined.

(** C7 (as amended).  [run_command] launches the command once and returns
    the two streams of the completed process whatever its exit status; when
    [subprocess.run] raises [FileNotFoundError] it returns an empty
    [stdout] and a fixed, non-empty message; [CalledProcessError] is turned
    into a message in the same way.  It returns an outcome exactly when
    [subprocess.run] does not raise an exception of another class: such an
    exception passes through [run_command] uncaught. *)
Theorem run_command_outcomes :
  forall (e : env) (command : str),
    (forall rc out err,
        shell e command = Completed rc out err ->
        result e (App.run_command command) = Some (out, err)
        /\ trace e (App.run_command command) = [EvRun command])
    /\ (shell e command = Raised FileNotFoundError ->
        result e (App.run_command command) = Some ([], App.not_found_text)
        /\ App.not_found_text <> [])
    /\ (forall t,
           shell e command = Raised (CalledProcessError t) ->
           result e (App.run_command command) = Some ([], lit "Error: " ++ t))
    /\ (forall x,
           shell e command = Raised x ->
           caught_by_run_command x = false ->
           result e (App.run_command command) = None
           /\ trace e (App.run_command command) = [EvRun command; EvRaise x])
    /\ ((exists o, result e (App.run_command command) = Some o)
        <-> (forall x, shell e command = Raised x ->
                       caught_by_run_command x = true)).
Proof.
  intros e command; rewrite app_run_command_answers; cbn [result trace].
  split; [|split; [|split; [|split; [|split]]]].
  - intros rc out err H; rewrite H; split; reflexivity.
  - intros H; rewrite H; split; [reflexivity | discriminate].
  - intros t H; rewrite H; reflexivity.
  - intros x H Hx; rewrite H.
    destruct x; try discriminate Hx; split; reflexivity.
  - intros [o Ho] x Hx; rewrite Hx in Ho.
    destruct x; try reflexivity; discriminate.
  - intros H.
    destruct (shell e command) as [rc o s|x] eqn:E; [eexists; reflexivity|].
    specialize (H x eq_refl).
    destruct x; try discriminate; eexists; reflexivity.
Qed.

Lemma run_command_outcomes_witness :
  result (mk_env (fun _ => Completed 1 [] (lit "No package found."))
                 (fun _ os => hd [] os) (fun _ => false))
         (App.run_command (lit "winget search nosuchapp"))
  = Some ([], lit "No package found.")
  /\ result (mk_env (fun _ => Raised FileNotFoundError)
                    (fun _ os => hd [] os) (fun _ => false))
            (App.run_command (lit "winget search nosuchapp"))
     = Some ([], App.not_found_text).
Proof.
  split.
  - exact (proj1 (proj1 (run_command_outcomes
                    (mk_env (fun _ => Completed 1 [] (lit "No package found."))
                            (fun _ os => hd [] os) (fun _ => false))
                    (lit "winget search nosuchapp"))
                    1%Z [] (lit "No package found.") eq_refl)).
  - exact (proj1 (proj1 (proj2 (run_command_outcomes
                    (mk_env (fun _ => Raised FileNotFoundError)
                            (fun _ os => hd [] os) (fun _ => false))
                    (lit "winget search nosuchapp")))
                    eq_refl)).
Defined.

(** C7 as stated fails: [run_command] is not total.  [subprocess.run]
    refuses a command that holds a NUL character with [ValueError], for
    which [run_command] has no [except] clause. *)
Lemma run_command_lets_value_error_through :
  result (mk_env (fun c => if contains [Ascii.zero] c
                           then Raised ValueError
                           else Completed 0 [] [])
                 (fun _ os => hd [] os) (fun _ => false))
         (App.run_command (lit "dir" ++ [Ascii.zero]))
  = None
  /\ trace (mk_env (fun c => if contains [Ascii.zero] c
                             then Raised ValueError
                             else Completed 0 [] [])
                   (fun _ os => hd [] os) (fun _ => false))
           (App.run_command (lit "dir" ++ [Ascii.zero]))
     = [EvRun (lit "dir" ++ [Ascii.zero]); EvRaise ValueError].
Proof. split; reflexivity. Qed.

(* ===================================================================== *)
(** ** The two scripts side by side *)
(* ===================================================================== *)

Lemma alike_run_command (m : bool) (c : str) :
  scripts_alike (same_outcome App.not_found_text Ap2.not_found_text) m
                (App.run_command c) (Ap2.run_command c).
Proof.
  unfold scripts_alike, same_outcome.
  rewrite app_run_command_answers.
  destruct (ap2_run_command_answers c) as [k [-> Hk]].
  apply alike_Log_r, alike_Subprocess.
  - intros r Hr; rewrite Hk.
    destruct r as [rc o s|[t| | | |n v]].
    + apply alike_Log_r; destruct (truthy s);
        [apply alike_Log_r|]; apply alike_Ret; cbn; auto.
    + apply alike_Log_r, alike_Ret; cbn; auto.
    + congruence.
    + apply alike_Raise.
    + apply alike_Raise.
    + apply alike_Raise.
  - rewrite Hk; apply alike_Log_r, alike_Ret; cbn; auto.
Qed.

(** After either [run_command]: the error is reported, with the two texts
    after [FileNotFoundError], or the flows go on alike. *)
Lemma alike_report (m : bool) (a b : str * str) (K1 K2 : str -> prog unit) :
  same_outcome App.not_found_text Ap2.not_found_text m a b ->
  (forall out, scripts_alike same_value m (K1 out) (K2 out)) ->
  scripts_alike same_value m
    (let '(out, err) := a in if truthy err then st_error err else K1 out)
    (let '(out, err) := b in if truthy err then st_error err else K2 out).
Proof.
  destruct a as [o1 e1], b as [o2 e2]; unfold same_outcome; cbn [fst snd].
  intros [<- [<-|(-> & -> & ->)]] HK.
  - destruct (truthy e1); [|apply HK].
    apply alike_refl; reflexivity.
  - apply alike_Show_text, alike_Ret; reflexivity.
Qed.

Lemma alike_parse_winget_search (m : bool) (output : str) :
  scripts_alike same_value m
    (App.parse_winget_search output) (Ap2.parse_winget_search output).
Proof.
  unfold scripts_alike.
  unfold App.parse_winget_search, Ap2.parse_winget_search, logging, st_error.
  cbn [bind]; apply alike_Log_r.
  destruct (length (splitlines output) <=? 3); cbn [bind].
  - apply alike_Log_r, alike_Show, alike_Ret; reflexivity.
  - apply alike_Log_r, alike_Ret; reflexivity.
Qed.

Lemma alike_install_selected (m : bool) (id : str) :
  scripts_alike same_value m
    (App.install_selected id) (Ap2.install_selected id).
Proof.
  unfold scripts_alike.
  unfold App.install_selected, Ap2.install_selected, st_button, logging.
  cbn [bind]; apply alike_Button; intros [|].
  - apply alike_Log_r.
    apply alike_bind
      with (sameA := same_outcome App.not_found_text Ap2.not_found_text);
      [apply alike_run_command|].
    intros m' a b _ Hab.
    apply (alike_report m' a b
             (fun out => st_success (installation_output out))
             (fun out => st_success (installation_output out)) Hab).
    intros out; apply alike_refl; reflexivity.
  - apply alike_Ret; reflexivity.
Qed.

Lemma alike_search_branch (r : str) :
  scripts_alike same_value false (App.search_branch r) (Ap2.search_branch r).
Proof.
  unfold scripts_alike.
  unfold App.search_branch, Ap2.search_branch, logging.
  cbn [bind]; apply alike_Log_r.
  apply alike_bind
    with (sameA := same_outcome App.not_found_text Ap2.not_found_text);
    [apply alike_run_command|].
  intros m a b _ Hab.
  refine (alike_report m a b _ _ Hab _); intros out.
  apply alike_bind with (sameA := same_value);
    [apply alike_parse_winget_search|].
  intros m' results results' _ Hres; unfold same_value in Hres; subst results'.
  destruct (truthy_results results); [|apply alike_Ret; reflexivity].
  apply alike_bind with (sameA := same_value);
    [apply alike_refl; reflexivity | intros m1 ? ? _ _].
  apply alike_bind with (sameA := same_value);
    [apply alike_refl; reflexivity | intros m2 ? ? _ _].
  apply alike_bind with (sameA := same_value);
    [apply alike_refl; reflexivity | intros m3 selected_app ? _ Hs].
  unfold same_value in Hs; subst.
  apply alike_bind with (sameA := same_value);
    [apply alike_refl; reflexivity | intros m4 selected_app_id ? _ Hs].
  unfold same_value in Hs; subst.
  apply alike_install_selected.
Qed.

(** C9 (as amended).  On a response that holds [WINGET_INSTALL:] and not
    [WINGET_SEARCH:], [app.py] launches the install command at once, while
    [ap2.py], which has no branch for that marker, shows the confirmation
    button for the whole response and can launch nothing but that response,
    and only once the button is pressed.  On a response that holds
    [WINGET_SEARCH:] the two scripts ask the same questions and show the
    same elements for the same answers, the log records of [ap2.py] apart:
    in every environment they launch the same commands and their visible
    traces agree event by event, the one difference allowed being, after a
    launch answered by [FileNotFoundError], the error element that shows
    the text of [app.py] in one and the text of [ap2.py] in the other;
    without such an answer the visible traces are equal. *)
Theorem install_marker_divergence :
  (forall r : str,
      contains WINGET_SEARCH r = false ->
      contains WINGET_INSTALL r = true ->
      first_command (App.process_response r)
      = Some (install_command (strip (replace WINGET_INSTALL [] r)))
      /\ Ap2.process_response r = Ap2.else_branch r
      /\ confirmed_first (Ap2.process_response r)
      /\ (forall c, may_run (Ap2.process_response r) c -> c = r)
      /\ (exists k,
             Ap2.process_response r
             = Show (ChatMessage (lit "assistant"))
                 (Button (lit "Confirm execution: " ++ r) k)
             /\ k false = Ret tt
             /\ first_command (k true) = Some r))
  /\ (forall r : str,
         contains WINGET_SEARCH r = true ->
         scripts_alike same_value false
                       (App.process_response r) (Ap2.process_response r)
         /\ (forall e : env,
                launches (trace e (App.process_response r))
                = launches (trace e (Ap2.process_response r))
                /\ Forall2 same_text_or_not_found
                           (visible (trace e (App.process_response r)))
                           (visible (trace e (Ap2.process_response r)))
                /\ ((forall c, shell e c <> Raised FileNotFoundError) ->
                    visible (trace e (App.process_response r))
                    = visible (trace e (Ap2.process_response r))))).
Proof.
  split.
  - intros r H1 H2.
    unfold App.process_response, Ap2.process_response; rewrite H1, H2.
    split; [apply first_command_app_install|].
    split; [reflexivity|].
    split; [exact I|].
    split.
    + intros c Hc; cbn in Hc.
      destruct Hc as [b Hc]; destruct b; cbn in Hc; [|contradiction].
      destruct Hc as [Hc|[res Hc]]; [now symmetry|].
      destruct res as [rc o err|[t| | | |n v]]; cbn in Hc; try contradiction.
      destruct err; cbn in Hc; contradiction.
    + eexists; split; [reflexivity|]; split; reflexivity.
  - intros r H.
    assert (Ha : scripts_alike same_value false
                   (App.process_response r) (Ap2.process_response r)).
    { unfold App.process_response, Ap2.process_response; rewrite H.
      apply alike_search_branch. }
    split; [exact Ha|].
    intros e; split; [|split].
    + exact (alike_launches _ _ _ _ _ _ e Ha).
    + exact (alike_trace _ _ _ _ _ _ e Ha).
    + intros He; exact (alike_trace_equal _ _ _ _ _ e He Ha).
Qed.

Lemma install_marker_divergence_witness :
  first_command
    (App.process_response (lit "WINGET_INSTALL: Microsoft.VisualStudioCode"))
  = Some (install_command (lit "Microsoft.VisualStudioCode"))
  /\ confirmed_first
       (Ap2.process_response (lit "WINGET_INSTALL: Microsoft.VisualStudioCode"))
  /\ scripts_alike same_value false
                   (App.process_response (lit "WINGET_SEARCH: vscode"))
                   (Ap2.process_response (lit "WINGET_SEARCH: vscode")).
Proof.
  split; [|split].
  - exact (proj1 (proj1 install_marker_divergence
                    (lit "WINGET_INSTALL: Microsoft.VisualStudioCode")
                    eq_refl eq_refl)).
  - exact (proj1 (proj2 (proj2 (proj1 install_marker_divergence
                    (lit "WINGET_INSTALL: Microsoft.VisualStudioCode")
                    eq_refl eq_refl)))).
  - exact (proj1 (proj2 install_marker_divergence
                    (lit "WINGET_SEARCH: vscode") eq_refl)).
Defined.

(** C9 as stated fails on a response that holds both markers: for
    ["WINGET_INSTALL: x WINGET_SEARCH: x"], [app.py] launches a search, not
    the install, and [ap2.py] launches the same search at once instead of
    showing the confirmation button. *)
Lemma install_marker_shadowed_by_search :
  contains WINGET_INSTALL (lit "WINGET_INSTALL: x WINGET_SEARCH: x") = true
  /\ first_command
       (App.process_response (lit "WINGET_INSTALL: x WINGET_SEARCH: x"))
     = Some (search_command (lit "WINGET_INSTALL: x  x"))
  /\ first_command
       (App.process_response (lit "WINGET_INSTALL: x WINGET_SEARCH: x"))
     <> Some (install_command
                (strip (replace WINGET_INSTALL []
                          (lit "WINGET_INSTALL: x WINGET_SEARCH: x"))))
  /\ first_command
       (Ap2.process_response (lit "WINGET_INSTALL: x WINGET_SEARCH: x"))
     = Some (search_command (lit "WINGET_INSTALL: x  x"))
  /\ ~ confirmed_first
         (Ap2.process_response (lit "WINGET_INSTALL: x WINGET_SEARCH: x")).
Proof.
  split; [reflexivity|].
  split; [reflexivity|].
  split; [vm_compute; discriminate|].
  split; [reflexivity|].
  intros H; exact H.
Qed.

(* ===================================================================== *)
(** ** More on the row pattern: what a match looks like *)
(* ===================================================================== *)

Lemma first_success_some {A B} (f : A -> option B) (l : list A) (b : B) :
  first_success f l = Some b -> exists a, In a l /\ f a = Some b.
Proof.
  induction l as [|a l IH]; simpl; [discriminate|].
  destruct (f a) as [b'|] eqn:E.
  - intros [= <-]; exists a; auto.
  - intros H; destruct (IH H) as [a' [Hin Ha']]; exists a'; auto.
Qed.

Lemma candidates_range (greedy : bool) (m n : nat) :
  In n (candidates greedy m) -> 1 <= n <= m.
Proof.
  unfold candidates; destruct greedy; [rewrite <- in_rev|];
    rewrite in_seq; lia.
Qed.

Lemma run_length_firstn (p : ascii -> bool) (n : nat) (s : str) :
  n <= run_length p s ->
  forallb p (firstn n s) = true /\ length (firstn n s) = n.
Proof.
  revert s; induction n as [|n IH]; intros s H; [split; reflexivity|].
  destruct s as [|c s]; simpl in H; [lia|].
  destruct (p c) eqn:E; [|lia].
  destruct (IH s ltac:(lia)) as [H1 H2].
  simpl; rewrite E, H1, H2; split; reflexivity.
Qed.

(** One item of a successful match: it took a non-empty prefix inside its
    class, and the rest of the pattern matched what follows. *)
Lemma match_items_cons_inv (it : re_item) (rest : list re_item) (s : str)
      (g : list str) :
  match_items (it :: rest) s = Some g ->
  exists a s' g',
    s = a ++ s' /\ a <> [] /\ forallb (item_class it) a = true
    /\ match_items rest s' = Some g'
    /\ g = (if item_capture it then a :: g' else g').
Proof.
  cbn [match_items]; intros H.
  apply first_success_some in H; destruct H as [n [Hin Hn]].
  apply candidates_range in Hin.
  destruct (match_items rest (skipn n s)) as [g'|] eqn:E; [|discriminate].
  injection Hn as <-.
  destruct (run_length_firstn (item_class it) n s ltac:(lia)) as [Hall Hlen].
  exists (firstn n s), (skipn n s), g'.
  split; [symmetry; apply firstn_skipn|].
  split; [intros E0; rewrite E0 in Hlen; simpl in Hlen; lia|].
  auto.
Qed.

Lemma blank_intro (ws : str) :
  ws <> [] -> forallb re_space ws = true -> blank ws = true.
Proof.
  intros H1 H2; unfold blank; rewrite H2.
  destruct ws; [congruence | reflexivity].
Qed.

Lemma word_intro (t : str) :
  t <> [] -> forallb re_not_space t = true -> word t = true.
Proof.
  intros H1 H2; unfold word; rewrite H2.
  destruct t; [congruence | reflexivity].
Qed.

(** The shape of every line the row pattern matches. *)
Lemma row_match_inv (line : str) (g : list str) :
  match_items row_pattern line = Some g ->
  exists g1 w1 g2 w2 g3 w3 g4 rest,
    g = [g1; g2; g3; g4]
    /\ line = g1 ++ w1 ++ g2 ++ w2 ++ g3 ++ w3 ++ g4 ++ rest
    /\ g1 <> [] /\ forallb re_dot g1 = true
    /\ blank w1 = true /\ word g2 = true
    /\ blank w2 = true /\ word g3 = true
    /\ blank w3 = true /\ word g4 = true.
Proof.
  unfold row_pattern; intros H.
  apply match_items_cons_inv in H.
  destruct H as (g1 & s1 & r1 & -> & N1 & C1 & H & ->).
  apply match_items_cons_inv in H.
  destruct H as (w1 & s2 & r2 & -> & N2 & C2 & H & ->).
  apply match_items_cons_inv in H.
  destruct H as (g2 & s3 & r3 & -> & N3 & C3 & H & ->).
  apply match_items_cons_inv in H.
  destruct H as (w2 & s4 & r4 & -> & N4 & C4 & H & ->).
  apply match_items_cons_inv in H.
  destruct H as (g3 & s5 & r5 & -> & N5 & C5 & H & ->).
  apply match_items_cons_inv in H.
  destruct H as (w3 & s6 & r6 & -> & N6 & C6 & H & ->).
  apply match_items_cons_inv in H.
  destruct H as (g4 & s7 & r7 & -> & N7 & C7 & H & ->).
  cbn [match_items] in H; injection H as <-.
  cbn [item_class item_capture] in *.
  exists g1, w1, g2, w2, g3, w3, g4, s7.
  repeat split; auto using blank_intro, word_intro.
Qed.

(** *** More on [strip] *)

Lemma drop_while_idem (p : ascii -> bool) (s : str) :
  drop_while p (drop_while p s) = drop_while p s.
Proof.
  induction s as [|c s IH]; [reflexivity|].
  simpl; destruct (p c) eqn:E; [exact IH|].
  simpl; now rewrite E.
Qed.

Lemma drop_while_nil_all (p : ascii -> bool) (s : str) :
  drop_while p s = [] -> forallb p s = true.
Proof.
  induction s as [|c s IH]; [reflexivity|].
  simpl; destruct (p c); [exact IH | discriminate].
Qed.

Lemma drop_while_app_keep (p : ascii -> bool) (s x : str) :
  drop_while p s <> [] -> drop_while p (s ++ x) = drop_while p s ++ x.
Proof.
  induction s as [|c s IH]; [intros H; simpl in H; congruence|].
  simpl; destruct (p c); [exact IH | reflexivity].
Qed.

(** What [drop_while] leaves is empty or starts outside the class. *)
Lemma drop_while_head (p : ascii -> bool) (s : str) :
  drop_while p s = []
  \/ exists c s', drop_while p s = c :: s' /\ p c = false.
Proof.
  induction s as [|c s IH]; [now left|].
  simpl; destruct (p c) eqn:E; [exact IH|].
  right; exists c, s; auto.
Qed.

Lemma drop_while_snoc (p : ascii -> bool) (x : str) (c : ascii) :
  p c = false -> exists y, drop_while p (x ++ [c]) = y ++ [c].
Proof.
  intros Hc; induction x as [|a x IH]; simpl.
  - rewrite Hc; exists []; reflexivity.
  - destruct (p a); [exact IH|].
    exists (a :: x); reflexivity.
Qed.

(** Trailing whitespace does not survive [strip] either. *)
Lemma strip_trailing_space (s ws : str) :
  forallb is_space ws = true -> strip (s ++ ws) = strip s.
Proof.
  intros Hws; unfold strip, lstrip, rstrip.
  destruct (drop_while is_space s) as [|c t] eqn:E.
  - rewrite drop_while_app_all by (apply drop_while_nil_all; exact E).
    rewrite (drop_while_all is_space ws Hws); reflexivity.
  - rewrite drop_while_app_keep by (rewrite E; discriminate).
    rewrite E, rev_app_distr, drop_while_app_all; [reflexivity|].
    rewrite forallb_forall in *; intros a Ha; apply Hws.
    now apply in_rev.
Qed.

(** [strip] is idempotent: a stripped string has no whitespace at either
    end. *)
Lemma strip_idem (s : str) : strip (strip s) = strip s.
Proof.
  unfold strip, lstrip, rstrip.
  destruct (drop_while_head is_space s) as [E|(c & t & E & Hc)]; rewrite E.
  - reflexivity.
  - cbn [rev].
    destruct (drop_while_snoc is_space (rev t) c Hc) as [y Hy]; rewrite Hy.
    rewrite rev_app_distr; cbn [rev app].
    cbn [drop_while]; rewrite Hc.
    change (rev (c :: rev y)) with (rev (rev y) ++ [c]).
    rewrite rev_involutive, <- Hy, drop_while_idem, Hy, rev_app_distr.
    reflexivity.
Qed.

(* ===================================================================== *)
(** ** More on the parser *)
(* ===================================================================== *)

(** X1.  Whatever line [re.match] accepts with the row pattern, the four
    groups and the line have the shape the pattern spells out: a non-empty
    first group without line feed, then three times a run of whitespace
    followed by a word, the words being groups 2 to 4; what follows the
    fourth word is not looked at. *)
Theorem row_match_shape :
  forall (line : str) (g : list str),
    match_items row_pattern line = Some g ->
    exists g1 w1 g2 w2 g3 w3 g4 rest,
      g = [g1; g2; g3; g4]
      /\ line = g1 ++ w1 ++ g2 ++ w2 ++ g3 ++ w3 ++ g4 ++ rest
      /\ g1 <> [] /\ forallb re_dot g1 = true
      /\ blank w1 = true /\ word g2 = true
      /\ blank w2 = true /\ word g3 = true
      /\ blank w3 = true /\ word g4 = true.
Proof.
  intros line g H.
  destruct (row_match_inv line g H)
    as (g1 & w1 & g2 & w2 & g3 & w3 & g4 & rest & Hg & Hline & Hrest).
  exists g1, w1, g2, w2, g3, w3, g4, rest.
  split; [exact Hg|]; split; [exact Hline | exact Hrest].
Qed.

Lemma row_match_shape_witness :
  exists g1 w1 g2 w2 g3 w3 g4 rest,
    [lit "Visual"; lit "Studio"; lit "Code"; lit "Microsoft.VSCode"]
    = [g1; g2; g3; g4]
    /\ lit "Visual Studio Code   Microsoft.VSCode  1.2  winget"
       = g1 ++ w1 ++ g2 ++ w2 ++ g3 ++ w3 ++ g4 ++ rest
    /\ g1 <> [] /\ forallb re_dot g1 = true
    /\ blank w1 = true /\ word g2 = true
    /\ blank w2 = true /\ word g3 = true
    /\ blank w3 = true /\ word g4 = true.
Proof.
  exact (row_match_shape
           (lit "Visual Studio Code   Microsoft.VSCode  1.2  winget")
           [lit "Visual"; lit "Studio"; lit "Code"; lit "Microsoft.VSCode"]
           eq_refl).
Defined.

(** What one line contributes: nothing, or one record whose identifier is a
    word. *)
Lemma parse_line_inv (line : str) :
  parse_line [] line = []
  \/ exists g1 g2,
       parse_line [] line = [(strip g1, g2)] /\ word g2 = true.
Proof.
  unfold parse_line.
  destruct (match_items row_pattern line) as [g|] eqn:E; [|now left].
  right.
  destruct (row_match_inv line g E)
    as (g1 & w1 & g2 & w2 & g3 & w3 & g4 & rest & -> & _ & _ & _ & _ & W2 & _).
  exists g1, g2; cbn [group Nat.sub nth app].
  rewrite (strip_token g2) by (apply word_inv in W2; tauto).
  auto.
Qed.

Lemma rows_in (lines : list str) (r : str * str) :
  In r (rows lines) -> exists line, In line lines /\ parse_line [] line = [r].
Proof.
  unfold rows; rewrite in_flat_map; intros (line & Hin & Hr).
  exists line; split; [exact Hin|].
  destruct (parse_line_inv line) as [E|(g1 & g2 & E & _)]; rewrite E in *.
  - contradiction.
  - destruct Hr as [<-|[]]; reflexivity.
Qed.

Lemma app_parse_some (output : str) (results : list (str * str)) :
  App.parse_winget_search output = Ret (Some results) ->
  3 < length (splitlines output)
  /\ results = rows (skipn 3 (splitlines output)).
Proof.
  unfold App.parse_winget_search.
  destruct (length (splitlines output) <=? 3) eqn:E; [discriminate|].
  apply Nat.leb_gt in E.
  rewrite fold_parse_line; intros [= <-]; auto.
Qed.

(** X2.  Every record [parse_winget_search] returns comes from a line after
    the third one; its identifier is never empty and holds no whitespace,
    and its name has no whitespace at either end (it may be empty). *)
Theorem parsed_records_well_formed :
  forall (output : str) (results : list (str * str)) (name id : str),
    App.parse_winget_search output = Ret (Some results) ->
    In (name, id) results ->
    word id = true
    /\ strip name = name
    /\ exists line,
         In line (skipn 3 (splitlines output))
         /\ parse_line [] line = [(name, id)].
Proof.
  intros output results name id Hp Hin.
  apply app_parse_some in Hp; destruct Hp as [_ ->].
  apply rows_in in Hin; destruct Hin as (line & Hline & Hr).
  destruct (parse_line_inv line) as [E|(g1 & g2 & E & W)];
    rewrite E in Hr; [discriminate|].
  injection Hr as <- <-.
  split; [exact W|].
  split; [apply strip_idem|].
  exists line; auto.
Qed.

Lemma parsed_records_well_formed_witness :
  word (lit "7zip.7zip") = true /\ strip (lit "7-Zip") = lit "7-Zip".
Proof.
  destruct (parsed_records_well_formed
              (unlines [ lit "Name   Id   Version   Source";
                         lit "----------------------------";
                         lit "";
                         lit "7-Zip   7zip.7zip   23.01   winget" ])
              [(lit "7-Zip", lit "7zip.7zip")]
              (lit "7-Zip") (lit "7zip.7zip") eq_refl (or_introl eq_refl))
    as (H1 & H2 & _).
  exact (conj H1 H2).
Defined.

(** X3.  A line without any whitespace, such as the dashed rule under the
    table header or an empty line, never yields a record. *)
Theorem line_without_whitespace_dropped :
  forall (results : list (str * str)) (line : str),
    forallb re_not_space line = true ->
    parse_line results line = results.
Proof.
  intros results line H; unfold parse_line.
  destruct (match_items row_pattern line) as [g|] eqn:E; [|reflexivity].
  exfalso.
  destruct (row_match_inv line g E)
    as (g1 & w1 & g2 & w2 & g3 & w3 & g4 & rest & _ & -> & _ & _ & B1 & _).
  apply blank_inv in B1; destruct B1 as [N1 S1].
  destruct w1 as [|c w1]; [congruence|].
  rewrite forallb_app in H; apply andb_true_iff in H; destruct H as [_ H].
  simpl in H, S1.
  apply andb_true_iff in H; destruct H as [H _].
  apply andb_true_iff in S1; destruct S1 as [S1 _].
  unfold re_not_space, re_space in *; rewrite S1 in H; discriminate.
Qed.

Lemma line_without_whitespace_dropped_witness :
  parse_line [(lit "7-Zip", lit "7zip.7zip")]
             (lit "------------------------------")
  = [(lit "7-Zip", lit "7zip.7zip")].
Proof.
  exact (line_without_whitespace_dropped
           [(lit "7-Zip", lit "7zip.7zip")]
           (lit "------------------------------") eq_refl).
Defined.

Lemma str_eqb_eq (a b : str) : str_eqb a b = true -> a = b.
Proof.
  unfold str_eqb; destruct (list_eq_dec ascii_dec a b); [auto | discriminate].
Qed.

Lemma is_eol_inv (eol : str) : is_eol eol = true -> eol = [LF] \/ eol = [CR; LF].
Proof.
  unfold is_eol; intros H; apply orb_true_iff in H.
  destruct H as [H|H]; apply str_eqb_eq in H; auto.
Qed.

Lemma splitlines_line_crlf (l rest : str) :
  forallb (fun c => negb (is_linebreak c)) l = true ->
  splitlines (l ++ CR :: LF :: rest) = l :: splitlines rest.
Proof.
  induction l as [|c l IH]; intros H.
  - reflexivity.
  - simpl in H; apply andb_true_iff in H; destruct H as [Hc Hl].
    apply negb_true_iff in Hc.
    change ((c :: l) ++ CR :: LF :: rest) with (c :: (l ++ CR :: LF :: rest)).
    cbn [splitlines]; rewrite Hc, (IH Hl); reflexivity.
Qed.

(** Splitting undoes writing line by line, with either terminator. *)
Lemma splitlines_unlines_with (eol : str) (lines : list str) :
  is_eol eol = true ->
  forallb (forallb (fun c => negb (is_linebreak c))) lines = true ->
  splitlines (unlines_with eol lines) = lines.
Proof.
  intros He; apply is_eol_inv in He.
  induction lines as [|l lines IH]; intros H; [reflexivity|].
  simpl in H; apply andb_true_iff in H; destruct H as [Hl Hls].
  unfold unlines_with; cbn [map concat]; rewrite <- app_assoc.
  fold (unlines_with eol lines).
  destruct He as [->| ->]; cbn [app].
  - rewrite splitlines_line by exact Hl; f_equal; exact (IH Hls).
  - rewrite splitlines_line_crlf by exact Hl; f_equal; exact (IH Hls).
Qed.

Lemma rows_length (lines : list str) : length (rows lines) <= length lines.
Proof.
  induction lines as [|l lines IH]; [apply le_n|].
  rewrite rows_cons, length_app; simpl.
  destruct (parse_line_inv l) as [E|(g1 & g2 & E & _)]; rewrite E; simpl; lia.
Qed.

(** X4.  On a text written line by line, with LF or CR LF as terminator,
    the parser skips the first three lines whatever they hold (even rows
    that would match) and returns the records of the lines after them, at
    most one per line, in their order; with three lines or fewer it shows
    "No applications found with the given name" and returns [None]. *)
Theorem parser_skips_three_lines :
  forall (eol h1 h2 h3 : str) (ls : list str),
    is_eol eol = true ->
    forallb (forallb (fun c => negb (is_linebreak c))) (h1 :: h2 :: h3 :: ls)
    = true ->
    App.parse_winget_search (unlines_with eol (h1 :: h2 :: h3 :: ls))
    = match ls with
      | [] => Show (Error no_applications) (Ret None)
      | _ :: _ => Ret (Some (rows ls))
      end
    /\ App.parse_winget_search (unlines_with eol [h1; h2])
       = Show (Error no_applications) (Ret None)
    /\ length (rows ls) <= length ls.
Proof.
  intros eol h1 h2 h3 ls He H.
  split; [|split; [|apply rows_length]].
  - unfold App.parse_winget_search.
    rewrite (splitlines_unlines_with eol _ He H).
    destruct ls as [|l ls]; [reflexivity|].
    cbn [length Nat.leb skipn]; rewrite fold_parse_line; reflexivity.
  - unfold App.parse_winget_search.
    rewrite (splitlines_unlines_with eol [h1; h2] He); [reflexivity|].
    cbn [forallb] in *.
    apply andb_true_iff in H; destruct H as [H1 H].
    apply andb_true_iff in H; destruct H as [H2 _].
    now rewrite H1, H2.
Qed.

Lemma parser_skips_three_lines_witness :
  App.parse_winget_search
    (unlines_with [CR; LF]
       [ lit "7-Zip   7zip.7zip   23.01   winget";
         lit "Git   Git.Git   2.44   winget";
         lit "VLC   VideoLAN.VLC   3.0   winget";
         lit "Vim   vim.vim   9.1   winget" ])
  = Ret (Some [(lit "Vim", lit "vim.vim")]).
Proof.
  exact (proj1 (parser_skips_three_lines [CR; LF]
                  (lit "7-Zip   7zip.7zip   23.01   winget")
                  (lit "Git   Git.Git   2.44   winget")
                  (lit "VLC   VideoLAN.VLC   3.0   winget")
                  [lit "Vim   vim.vim   9.1   winget"]
                  eq_refl eq_refl)).
Defined.

(* ===================================================================== *)
(** ** More on the search flow *)
(* ===================================================================== *)

Lemma str_eqb_refl (a : str) : str_eqb a a = true.
Proof.
  unfold str_eqb; destruct (list_eq_dec ascii_dec a a); congruence.
Qed.



(** X5.  The selection is resolved among the parsed records only: when the
    selected name is one of the options offered, the identifier used is
    that of a record with this name; when it is not, the list
    comprehension is empty and indexing it raises [IndexError]. *)
Theorem selected_id_from_results :
  forall (results : list (str * str)) (selected_app : str),
    (In selected_app (map fst results) ->
     exists id,
       selected_id results selected_app = Ret id
       /\ In (selected_app, id) results)
    /\ (~ In selected_app (map fst results) ->
        selected_id results selected_app = Raise IndexError).
Proof.
  intros results selected_app; unfold selected_id.
  destruct (filter (fun r => str_eqb (fst r) selected_app) results)
    as [|[n i] l] eqn:E.
  - split; [|reflexivity].
    intros Hin; apply in_map_iff in Hin; destruct Hin as (p & Hp & Hin).
    assert (Hf : In p (filter (fun r => str_eqb (fst r) selected_app) results)).
    { apply filter_In; split; [exact Hin|].
      rewrite Hp; apply str_eqb_refl. }
    rewrite E in Hf; contradiction.
  - assert (Hf : In (n, i)
                    (filter (fun r => str_eqb (fst r) selected_app) results))
      by (rewrite E; now left).
    apply filter_In in Hf; destruct Hf as [Hin Heq].
    apply str_eqb_eq in Heq; cbn [fst] in Heq; subst n.
    split.
    + intros _; exists i; auto.
    + intros Hn; exfalso; apply Hn.
      apply in_map_iff; exists (selected_app, i); auto.
Qed.

Lemma selected_id_from_results_witness :
  exists id,
    selected_id [(lit "7-Zip", lit "7zip.7zip"); (lit "Vim", lit "vim.vim")]
                (lit "Vim")
    = Ret id
    /\ In (lit "Vim", id)
          [(lit "7-Zip", lit "7zip.7zip"); (lit "Vim", lit "vim.vim")].
Proof.
  apply (proj1 (selected_id_from_results
                  [(lit "7-Zip", lit "7zip.7zip"); (lit "Vim", lit "vim.vim")]
                  (lit "Vim"))).
  right; left; reflexivity.
Defined.

Lemma app_run_completed (e : env) (c : str) (rc : Z) (out err : str) :
  shell e c = Completed rc out err ->
  trace e (App.run_command c) = [EvRun c]
  /\ result e (App.run_command c) = Some (out, err).
Proof.
  intros H; rewrite app_run_command_answers; cbn [trace result].
  rewrite H; split; reflexivity.
Qed.



(** X7.  When the search output has more than three lines and none of the
    lines after the third yields a record, the search flow of [app.py]
    ends right after the search command: nothing is shown, not even the
    "No applications found" message of the short-output case. *)
Theorem search_without_rows_is_silent :
  forall (e : env) (r : str) (rc : Z) (output : str),
    shell e (search_command (strip (replace WINGET_SEARCH [] r)))
    = Completed rc output [] ->
    3 < length (splitlines output) ->
    rows (skipn 3 (splitlines output)) = [] ->
    trace e (App.search_branch r)
    = [EvRun (search_command (strip (replace WINGET_SEARCH [] r)))]
    /\ result e (App.search_branch r) = Some tt.
Proof.
  intros e r rc output Hsh Hlen Hrows.
  destruct (app_run_completed e _ _ _ _ Hsh) as [T1 R1].
  unfold App.search_branch.
  rewrite trace_bind, result_bind, T1, R1; cbn [truthy app].
  unfold App.parse_winget_search.
  apply Nat.leb_gt in Hlen; rewrite Hlen.
  rewrite fold_parse_line, Hrows; split; reflexivity.
Qed.

Lemma search_without_rows_is_silent_witness :
  trace (mk_env (fun _ => Completed 0
                   (unlines [ lit "Name   Id   Version   Source";
                              lit "----------------------------";
                              lit "";
                              lit "No results found" ])
                   [])
                (fun _ os => hd [] os) (fun _ => true))
        (App.search_branch (lit "WINGET_SEARCH: nosuchapp"))
  = [EvRun (search_command (lit "nosuchapp"))].
Proof.
  refine (proj1 (search_without_rows_is_silent
                   (mk_env (fun _ => Completed 0
                      (unlines [ lit "Name   Id   Version   Source";
                                 lit "----------------------------";
                                 lit "";
                                 lit "No results found" ])
                      [])
                      (fun _ os => hd [] os) (fun _ => true))
                   (lit "WINGET_SEARCH: nosuchapp") 0%Z
                   (unlines [ lit "Name   Id   Version   Source";
                              lit "----------------------------";
                              lit "";
                              lit "No results found" ])
                   eq_refl _ eq_refl)).
  vm_compute; lia.
Defined.

(* ===================================================================== *)
(** ** What a turn can launch *)
(* ===================================================================== *)

Lemma launches_app (a b : list event) :
  launches (a ++ b) = launches a ++ launches b.
Proof.
  induction a as [|ev a IH]; [reflexivity|].
  destruct ev; simpl; rewrite IH; reflexivity.
Qed.


Lemma ap2_run_launches (e : env) (c : str) :
  launches (trace e (Ap2.run_command c)) = [c].
Proof.
  destruct (ap2_run_command_answers c) as [k [-> Hk]]; cbn [trace].
  rewrite Hk.
  destruct (shell e c) as [rc o s|[t| | | |n]]; try reflexivity.
  cbn; destruct (truthy s); reflexivity.
Qed.

Lemma app_after_outcome_launches (e : env) (err : str) (p : prog unit) :
  launches (trace e (if truthy err then st_error err else p))
  = if truthy err then [] else launches (trace e p).
Proof. destruct (truthy err); reflexivity. Qed.


Lemma ap2_install_selected_launches (e : env) (id : str) :
  launches (trace e (Ap2.install_selected id))
  = if button_pressed e (lit "Install") then [install_command id] else [].
Proof.
  unfold Ap2.install_selected, st_button, logging; cbn [bind trace launches].
  destruct (button_pressed e (lit "Install")); [|reflexivity].
  cbn [bind trace launches].
  rewrite trace_bind, launches_app, ap2_run_launches.
  destruct (result e (Ap2.run_command (install_command id))) as [[o s]|];
    [|reflexivity].
  destruct (truthy s); reflexivity.
Qed.

(** What follows the parser in the search flow, for either script's
    [install_selected]. *)
Lemma selection_launches (e : env) (install : str -> prog unit)
      (results : list (str * str)) :
  (forall id, launches (trace e (install id))
              = if button_pressed e (lit "Install")
                then [install_command id] else []) ->
  launches (trace e
     (bind (st_chat_message (lit "assistant")) (fun _ =>
      bind (st_write (lit "Here are the search results:")) (fun _ =>
      bind (st_radio (lit "Select an application to install:")
                     (map fst results)) (fun selected_app =>
      bind (selected_id results selected_app) install)))))
  = [] \/
  (button_pressed e (lit "Install") = true
   /\ exists name id,
        In (name, id) results
        /\ launches (trace e
             (bind (st_chat_message (lit "assistant")) (fun _ =>
              bind (st_write (lit "Here are the search results:")) (fun _ =>
              bind (st_radio (lit "Select an application to install:")
                             (map fst results)) (fun selected_app =>
              bind (selected_id results selected_app) install)))))
           = [install_command id]).
Proof.
  intros Hinst.
  unfold st_chat_message, st_write, st_radio; cbn [bind trace launches].
  set (sel := radio_choice e (lit "Select an application to install:")
                           (map fst results)).
  unfold selected_id.
  destruct (filter (fun r => str_eqb (fst r) sel) results) as [|[n i] l] eqn:E.
  - now left.
  - cbn [bind snd]; rewrite Hinst.
    destruct (button_pressed e (lit "Install")); [|now left].
    right; split; [reflexivity|].
    exists n, i; split; [|reflexivity].
    assert (Hf : In (n, i) (filter (fun r => str_eqb (fst r) sel) results))
      by (rewrite E; now left).
    apply filter_In in Hf; tauto.
Qed.





Lemma ap2_parse_launches (e : env) (output : str) :
  launches (trace e (Ap2.parse_winget_search output)) = [].
Proof.
  unfold Ap2.parse_winget_search, logging; cbn [bind trace launches].
  destruct (length (splitlines output) <=? 3); reflexivity.
Qed.

Lemma ap2_parse_result (e : env) (output : str) (results : list (str * str)) :
  result e (Ap2.parse_winget_search output) = Some (Some results) ->
  results = rows (skipn 3 (splitlines output)).
Proof.
  unfold Ap2.parse_winget_search, logging; cbn [bind result].
  destruct (length (splitlines output) <=? 3); cbn.
  - discriminate.
  - rewrite fold_parse_line; intros [= <-]; reflexivity.
Qed.

(** The commands of [ap2.py]'s search flow. *)
Lemma ap2_search_launches (e : env) (r : str) :
  exists tail,
    launches (trace e (Ap2.search_branch r))
    = search_command (strip (replace WINGET_SEARCH [] r)) :: tail
    /\ (tail = []
        \/ (button_pressed e (lit "Install") = true
            /\ exists id, word id = true /\ tail = [install_command id])).
Proof.
  unfold Ap2.search_branch, logging; cbn [bind trace launches].
  rewrite trace_bind, launches_app, ap2_run_launches; cbn [app].
  destruct (result e (Ap2.run_command
              (search_command (strip (replace WINGET_SEARCH [] r)))))
    as [[out err]|]; [|exists []; auto].
  destruct (truthy err); [exists []; auto|].
  rewrite trace_bind, launches_app, ap2_parse_launches; cbn [app].
  destruct (result e (Ap2.parse_winget_search out)) as [results|] eqn:R;
    [|exists []; auto].
  destruct (truthy_results results) eqn:T; [|exists []; auto].
  destruct results as [results|]; [|discriminate T].
  pose proof (selection_launches e Ap2.install_selected results
                (ap2_install_selected_launches e)) as HS.
  match type of HS with
  | launches (trace e ?q) = [] \/ _ =>
      match goal with
      | |- context [launches (trace e ?p)] => change p with q
      end
  end.
  destruct HS as [H|(Hb & name & id & Hin & H)]; rewrite H.
  - exists []; auto.
  - exists [install_command id]; split; [reflexivity|].
    right; split; [exact Hb|]; exists id; split; [|reflexivity].
    apply ap2_parse_result in R; subst results.
    apply rows_in in Hin; destruct Hin as (line & _ & Hr).
    destruct (parse_line_inv line) as [E|(g1 & g2 & E & W)];
      rewrite E in Hr; [discriminate|].
    now injection Hr as _ <-.
Qed.

Lemma ap2_else_launches (e : env) (r : str) :
  launches (trace e (Ap2.else_branch r))
  = if button_pressed e (lit "Confirm execution: " ++ r) then [r] else [].
Proof.
  unfold Ap2.else_branch, st_chat_message, st_button, logging.
  cbn [bind trace launches].
  destruct (button_pressed e (lit "Confirm execution: " ++ r)); [|reflexivity].
  cbn [bind trace launches].
  rewrite trace_bind, launches_app, ap2_run_launches.
  destruct (result e (Ap2.run_command r)) as [[o s]|]; [|reflexivity].
  destruct (truthy s); reflexivity.
Qed.

(** X9.  In [ap2.py] the only command launched without a button pressed is
    the search command: with no button pressed in the turn, a response that
    holds [WINGET_SEARCH:] launches the search alone and any other response
    launches nothing.  In every turn at most two commands are launched, and
    each is the search command, the install of a one-word identifier, or
    the raw response itself (that one only when the response holds no
    [WINGET_SEARCH:] and its confirmation button is pressed). *)
Theorem ap2_launches_search_or_confirmed :
  forall (e : env) (r : str),
    length (launches (trace e (Ap2.process_response r))) <= 2
    /\ ((forall l, button_pressed e l = false) ->
        launches (trace e (Ap2.process_response r))
        = if contains WINGET_SEARCH r
          then [search_command (strip (replace WINGET_SEARCH [] r))]
          else [])
    /\ (forall c,
           In c (launches (trace e (Ap2.process_response r))) ->
           c = search_command (strip (replace WINGET_SEARCH [] r))
           \/ (exists id, word id = true /\ c = install_command id)
           \/ (c = r /\ contains WINGET_SEARCH r = false
               /\ button_pressed e (lit "Confirm execution: " ++ r) = true)).
Proof.
  intros e r; unfold Ap2.process_response.
  destruct (contains WINGET_SEARCH r).
  - destruct (ap2_search_launches e r)
      as (tail & -> & [-> | (Hb & id & W & ->)]).
    + split; [simpl; lia|]; split; [reflexivity|].
      intros c [<-|[]]; auto.
    + split; [simpl; lia|]; split; [intros Hf; rewrite Hf in Hb; discriminate|].
      intros c [<-|[<-|[]]]; [auto|].
      right; left; exists id; auto.
  - rewrite ap2_else_launches.
    destruct (button_pressed e (lit "Confirm execution: " ++ r)) eqn:B.
    + split; [simpl; lia|]; split; [intros Hf; rewrite Hf in B; discriminate|].
      intros c [<-|[]]; auto.
    + split; [simpl; lia|]; split; [reflexivity|]; intros c [].
Qed.

Lemma ap2_launches_search_or_confirmed_witness :
  launches (trace (mk_env (fun _ => Completed 0 [] [])
                          (fun _ os => hd [] os) (fun _ => false))
                  (Ap2.process_response (lit "format C:")))
  = [].
Proof.
  exact (proj1 (proj2 (ap2_launches_search_or_confirmed
                         (mk_env (fun _ => Completed 0 [] [])
                                 (fun _ os => hd [] os) (fun _ => false))
                         (lit "format C:")))
           (fun _ => eq_refl)).
Defined.

(* ===================================================================== *)
(** ** Integers in and out of text *)
(* ===================================================================== *)

Lemma uint_chars_digits (d : Decimal.uint) :
  forallb is_digit (lit (NilEmpty.string_of_uint d)) = true.
Proof. induction d; simpl; auto. Qed.

(** Reading the digits of [d] after the digits read so far ([acc]). *)
Lemma digits_from_acc (d : Decimal.uint) (acc : positive) :
  digits_from (Zpos acc) true (lit (NilEmpty.string_of_uint d))
  = Some (Zpos (Pos.of_uint_acc d acc)).
Proof.
  revert acc; induction d; intros acc; [reflexivity|..];
    cbn [NilEmpty.string_of_uint lit list_ascii_of_string digits_from
         Pos.of_uint_acc];
    match goal with
    | |- context [is_digit ?c] =>
        change (is_digit c) with true; cbv iota;
        change (digit_val c) with (Z.of_N (code c) - 48)%Z
    end;
    match goal with
    | |- digits_from ?z true _ = Some (Zpos (Pos.of_uint_acc _ ?p)) =>
        replace z with (Zpos p) by (vm_compute code; lia)
    end; apply IHd.
Qed.

(** Reading the digits of [d] from the start: leading zeros count for
    nothing. *)
Lemma digits_from_start (d : Decimal.uint) (prev : bool) :
  d <> Decimal.Nil \/ prev = true ->
  digits_from 0 prev (lit (NilEmpty.string_of_uint d))
  = Some (Z.of_N (Pos.of_uint d)).
Proof.
  revert prev; induction d; intros prev H;
    [destruct H as [H| ->]; [congruence | reflexivity] | ..];
    cbn [NilEmpty.string_of_uint lit list_ascii_of_string digits_from
         Pos.of_uint];
    match goal with
    | |- context [is_digit ?c] =>
        change (is_digit c) with true; cbv iota;
        change (digit_val c) with (Z.of_N (code c) - 48)%Z
    end.
  - change (10 * 0 + (Z.of_N (code "0") - 48))%Z with 0%Z.
    apply IHd; now right.
  - exact (digits_from_acc d 1).
  - exact (digits_from_acc d 2).
  - exact (digits_from_acc d 3).
  - exact (digits_from_acc d 4).
  - exact (digits_from_acc d 5).
  - exact (digits_from_acc d 6).
  - exact (digits_from_acc d 7).
  - exact (digits_from_acc d 8).
  - exact (digits_from_acc d 9).
Qed.

Lemma pos_chars_value (p : positive) :
  digits_from 0 false (lit (NilEmpty.string_of_uint (Pos.to_uint p)))
  = Some (Zpos p).
Proof.
  rewrite digits_from_start by (left; apply DecimalPos.Unsigned.to_uint_nonnil).
  now rewrite DecimalPos.Unsigned.of_to.
Qed.

Lemma pos_chars_shape (p : positive) :
  exists c t,
    lit (NilEmpty.string_of_uint (Pos.to_uint p)) = c :: t
    /\ forallb is_digit (c :: t) = true
    /\ NilZero.string_of_uint (Pos.to_uint p)
       = NilEmpty.string_of_uint (Pos.to_uint p).
Proof.
  pose proof (DecimalPos.Unsigned.to_uint_nonnil p) as Hn.
  pose proof (uint_chars_digits (Pos.to_uint p)) as Hd.
  destruct (Pos.to_uint p) as [| | | | | | | | | |] eqn:E;
    [congruence|..]; eexists; eexists;
    (split; [reflexivity | split; [exact Hd | reflexivity]]).
Qed.

Lemma digit_not_space (c : ascii) : is_digit c = true -> is_space c = false.
Proof.
  unfold is_digit, is_space; intros H.
  apply andb_true_iff in H; destruct H as [H1 H2].
  apply N.leb_le in H1, H2.
  repeat match goal with
         | |- context [(?a <=? ?b)%N] =>
             destruct (N.leb_spec a b)
         | |- context [(?a =? ?b)%N] =>
             destruct (N.eqb_spec a b)
         end; try reflexivity; lia.
Qed.

Lemma digits_are_word (s : str) :
  forallb is_digit s = true -> forallb re_not_space s = true.
Proof.
  rewrite !forallb_forall; intros H c Hc.
  unfold re_not_space; now rewrite (digit_not_space c (H c Hc)).
Qed.

Lemma digits_are_sign_or_digit (s : str) :
  forallb is_digit s = true -> forallb is_sign_or_digit s = true.
Proof.
  rewrite !forallb_forall; intros H c Hc.
  unfold is_sign_or_digit; now rewrite (H c Hc).
Qed.

(** The text of an integer: not empty, made of digits after an optional
    minus sign, hence free of whitespace. *)
Lemma str_of_int_chars (n : Z) :
  str_of_int n <> []
  /\ forallb is_sign_or_digit (str_of_int n) = true
  /\ forallb re_not_space (str_of_int n) = true.
Proof.
  unfold str_of_int; destruct n as [|p|p]; cbn [Z.to_int NilZero.string_of_int].
  - repeat split; discriminate.
  - destruct (pos_chars_shape p) as (c & t & E & D & ->); rewrite E.
    split; [discriminate|].
    split; [apply digits_are_sign_or_digit | apply digits_are_word]; exact D.
  - destruct (pos_chars_shape p) as (c & t & E & D & ->).
    cbn [lit list_ascii_of_string]; fold (lit (NilEmpty.string_of_uint (Pos.to_uint p))).
    rewrite E.
    split; [discriminate|].
    split.
    + change (forallb is_sign_or_digit ("-"%char :: c :: t))
        with (true && forallb is_sign_or_digit (c :: t)).
      apply digits_are_sign_or_digit; exact D.
    + change (forallb re_not_space ("-"%char :: c :: t))
        with (true && forallb re_not_space (c :: t)).
      apply digits_are_word; exact D.
Qed.

Lemma int_space_is_space (c : ascii) :
  is_int_space c = true -> is_space c = true.
Proof.
  unfold is_int_space, is_space.
  repeat match goal with
         | |- context [(?a <=? ?b)%N] => destruct (N.leb_spec a b)
         | |- context [(?a =? ?b)%N] => destruct (N.eqb_spec a b)
         end; cbn; try reflexivity; try discriminate; lia.
Qed.

(** [int] finds nothing to skip around a word. *)
Lemma int_strip_token (t : str) :
  forallb re_not_space t = true -> int_strip t = t.
Proof.
  intros H; unfold int_strip.
  assert (G : forall l, forallb re_not_space l = true ->
                        forallb (fun c => negb (is_int_space c)) l = true).
  { intros l Hl; rewrite forallb_forall in *; intros c Hc.
    specialize (Hl c Hc); unfold re_not_space in Hl.
    destruct (is_int_space c) eqn:E; [|reflexivity].
    now rewrite (int_space_is_space c E) in Hl. }
  rewrite (drop_while_none is_int_space t) by (apply G; exact H).
  rewrite drop_while_none.
  - apply rev_involutive.
  - apply G; rewrite forallb_forall in *; intros c Hc; apply H.
    now apply in_rev.
Qed.

(** [int(str(n))] is [n] as long as [n] is written with no more digits
    than [int] accepts, and fails beyond. *)
Lemma int_str_of_int (n : Z) :
  int (str_of_int n)
  = if (count_digits (str_of_int n) <=? int_max_str_digits)%N
    then Some n else None.
Proof.
  destruct (str_of_int_chars n) as (_ & _ & Hw).
  unfold int; rewrite (int_strip_token _ Hw).
  unfold str_of_int; destruct n as [|p|p]; cbn [Z.to_int NilZero.string_of_int].
  - reflexivity.
  - destruct (pos_chars_shape p) as (c & t & E & D & ->).
    pose proof (pos_chars_value p) as V; rewrite E in *.
    cbn [forallb] in D; apply andb_true_iff in D; destruct D as [Dc _].
    assert (Hp : Ascii.eqb c "+" = false).
    { destruct (Ascii.eqb c "+") eqn:X; [|reflexivity].
      apply Ascii.eqb_eq in X; subst c; discriminate Dc. }
    assert (Hm : Ascii.eqb c "-" = false).
    { destruct (Ascii.eqb c "-") eqn:X; [|reflexivity].
      apply Ascii.eqb_eq in X; subst c; discriminate Dc. }
    rewrite Hp, Hm; unfold int_literal; rewrite V; reflexivity.
  - destruct (pos_chars_shape p) as (c & t & E & D & ->).
    cbn [lit list_ascii_of_string].
    fold (lit (NilEmpty.string_of_uint (Pos.to_uint p))).
    change (Ascii.eqb "-" "+") with false; change (Ascii.eqb "-" "-") with true.
    cbv iota; unfold int_literal; rewrite pos_chars_value.
    change (count_digits ("-"%char :: ?l)) with (count_digits l).
    destruct (count_digits (lit (NilEmpty.string_of_uint (Pos.to_uint p)))
              <=? int_max_str_digits)%N; reflexivity.
Qed.

(** [int] at the edges of what it accepts. *)
Lemma int_edge_cases :
  int (lit "1" ++ [ascii_of_N 28]) = None
  /\ int ([ascii_of_N 160] ++ lit "12" ++ [ascii_of_N 133]) = Some 12%Z
  /\ int (lit " +1_0 ") = Some 10%Z
  /\ int (lit "1__0") = None
  /\ int (lit "- 5") = None
  /\ int (repeat "0"%char 4301) = None
  /\ int (lit "-" ++ repeat "0"%char 4300) = Some 0%Z.
Proof. repeat split; vm_compute; reflexivity. Qed.

(** A text of digits longer than [int] accepts is refused. *)
Lemma int_digits_over_limit (d : str) :
  forallb is_digit d = true ->
  (int_max_str_digits <? count_digits d)%N = true ->
  int d = None.
Proof.
  intros Hd Hc.
  unfold int; rewrite (int_strip_token d (digits_are_word d Hd)).
  destruct d as [|c d]; [reflexivity|].
  pose proof Hd as Hd'; cbn [forallb] in Hd'.
  apply andb_true_iff in Hd'; destruct Hd' as [Dc _].
  assert (Hp : Ascii.eqb c "+" = false).
  { destruct (Ascii.eqb c "+") eqn:X; [|reflexivity].
    apply Ascii.eqb_eq in X; subst c; discriminate Dc. }
  assert (Hm : Ascii.eqb c "-" = false).
  { destruct (Ascii.eqb c "-") eqn:X; [|reflexivity].
    apply Ascii.eqb_eq in X; subst c; discriminate Dc. }
  rewrite Hp, Hm; unfold int_literal.
  apply N.ltb_lt in Hc.
  destruct (digits_from 0 false (c :: d)); [|reflexivity].
  destruct (N.leb_spec (count_digits (c :: d)) int_max_str_digits);
    [lia | reflexivity].
Qed.

(** C6.  In the sleep branch, a payload that [int] rejects gives the
    message "Invalid time provided for sleep settings. Please provide a
    number." and nothing else: no command is launched and the run ends
    normally.  A payload that [int] reads as [n] launches the [powercfg]
    command with [n].  Among the payloads [int] rejects are the texts of
    more than 4300 digits. *)
Theorem sleep_payload_validated :
  forall r : str,
    contains WINGET_SEARCH r = false ->
    contains WINGET_INSTALL r = false ->
    contains POWERSHELL_SLEEP r = true ->
    (int (strip (replace POWERSHELL_SLEEP [] r)) = None ->
     App.process_response r
     = Show (ChatMessage (lit "assistant"))
         (Show (Error App.invalid_time) (Ret tt))
     /\ runs_nothing (App.process_response r)
     /\ no_raise (App.process_response r))
    /\ (forall n : Z,
           int (strip (replace POWERSHELL_SLEEP [] r)) = Some n ->
           first_command (App.process_response r) = Some (sleep_command n))
    /\ (forallb is_digit (strip (replace POWERSHELL_SLEEP [] r)) = true ->
        (int_max_str_digits
         <? count_digits (strip (replace POWERSHELL_SLEEP [] r)))%N = true ->
        App.process_response r
        = Show (ChatMessage (lit "assistant"))
            (Show (Error App.invalid_time) (Ret tt))).
Proof.
  intros r H1 H2 H3.
  unfold App.process_response; rewrite H1, H2, H3.
  split; [|split].
  - intros Hnone; rewrite (app_sleep_invalid r Hnone).
    split; [reflexivity | split; exact I].
  - intros n Hn; apply first_command_app_sleep; exact Hn.
  - intros Hd Hc; apply app_sleep_invalid.
    apply int_digits_over_limit; assumption.
Qed.

Lemma sleep_payload_validated_witness :
  App.process_response (lit "POWERSHELL_SLEEP: abc")
  = Show (ChatMessage (lit "assistant"))
      (Show (Error App.invalid_time) (Ret tt))
  /\ first_command (App.process_response (lit "POWERSHELL_SLEEP: 30"))
     = Some (lit "powershell -Command " ++ [DQUOTE]
             ++ lit "powercfg /change /standby-timeout-ac 30" ++ [DQUOTE])
  /\ App.process_response
       (lit "POWERSHELL_SLEEP: " ++ repeat "1"%char 4301)
     = Show (ChatMessage (lit "assistant"))
         (Show (Error App.invalid_time) (Ret tt)).
Proof.
  split; [|split].
  - exact (proj1 (proj1 (sleep_payload_validated
                           (lit "POWERSHELL_SLEEP: abc")
                           eq_refl eq_refl eq_refl) eq_refl)).
  - exact (proj1 (proj2 (sleep_payload_validated
                           (lit "POWERSHELL_SLEEP: 30")
                           eq_refl eq_refl eq_refl))
             30%Z eq_refl).
  - refine (proj2 (proj2 (sleep_payload_validated
                            (lit "POWERSHELL_SLEEP: " ++ repeat "1"%char 4301)
                            _ _ _)) _ _); vm_compute; reflexivity.
Defined.

(* ===================================================================== *)
(** ** More on the dispatch *)
(* ===================================================================== *)

Lemma contains_absent_head (a : ascii) (m s : str) :
  forallb (fun c => negb (Ascii.eqb a c)) s = true ->
  contains (a :: m) s = false.
Proof.
  induction s as [|c s IH]; intros H; [reflexivity|].
  simpl in H; apply andb_true_iff in H; destruct H as [Hc Hs].
  apply negb_true_iff in Hc.
  cbn [contains starts_with]; rewrite Hc, (IH Hs); reflexivity.
Qed.

Lemma contains_starts_with (p s : str) :
  starts_with p s = true -> contains p s = true.
Proof. destruct s; simpl; intros ->; reflexivity. Qed.

(** A letter occurs neither in whitespace nor in the text of an integer. *)
Lemma letter_absent (a : ascii) (ws1 ws2 : str) (n : Z) :
  is_space a = false -> is_sign_or_digit a = false ->
  forallb is_space ws1 = true -> forallb is_space ws2 = true ->
  forallb (fun c => negb (Ascii.eqb a c)) (ws1 ++ str_of_int n ++ ws2) = true.
Proof.
  intros Ha1 Ha2 H1 H2.
  destruct (str_of_int_chars n) as (_ & Hd & _).
  rewrite !forallb_app.
  assert (G : forall (p : ascii -> bool) l,
             p a = false -> forallb p l = true ->
             forallb (fun c => negb (Ascii.eqb a c)) l = true).
  { intros p l Hp Hl; rewrite forallb_forall in *; intros c Hc.
    apply negb_true_iff.
    destruct (Ascii.eqb a c) eqn:E; [|reflexivity].
    apply Ascii.eqb_eq in E; subst c; rewrite (Hl a Hc) in Hp; discriminate. }
  rewrite (G is_space ws1 Ha1 H1), (G is_sign_or_digit _ Ha2 Hd),
          (G is_space ws2 Ha1 H2); reflexivity.
Qed.

Lemma sleep_response_dispatch (ws1 ws2 : str) (n : Z) :
  forallb is_space ws1 = true -> forallb is_space ws2 = true ->
  contains WINGET_SEARCH (POWERSHELL_SLEEP ++ ws1 ++ str_of_int n ++ ws2)
  = false
  /\ contains WINGET_INSTALL (POWERSHELL_SLEEP ++ ws1 ++ str_of_int n ++ ws2)
     = false
  /\ contains POWERSHELL_SLEEP
       (POWERSHELL_SLEEP ++ ws1 ++ str_of_int n ++ ws2) = true
  /\ int (strip (replace POWERSHELL_SLEEP []
                   (POWERSHELL_SLEEP ++ ws1 ++ str_of_int n ++ ws2)))
     = if (count_digits (str_of_int n) <=? int_max_str_digits)%N
       then Some n else None.
Proof.
  intros H1 H2.
  set (rest := ws1 ++ str_of_int n ++ ws2).
  assert (HW : contains WINGET_SEARCH rest = false).
  { apply contains_absent_head, letter_absent; auto. }
  assert (HI : contains WINGET_INSTALL rest = false).
  { apply contains_absent_head, letter_absent; auto. }
  assert (HP : contains POWERSHELL_SLEEP rest = false).
  { apply contains_absent_head, letter_absent; auto. }
  split; [|split; [|split]].
  - change (contains WINGET_SEARCH (POWERSHELL_SLEEP ++ rest))
      with (contains WINGET_SEARCH rest); exact HW.
  - change (contains WINGET_INSTALL (POWERSHELL_SLEEP ++ rest))
      with (contains WINGET_INSTALL rest); exact HI.
  - apply contains_starts_with, starts_with_app.
  - change (replace POWERSHELL_SLEEP [] (POWERSHELL_SLEEP ++ rest))
      with (replace_from POWERSHELL_SLEEP [] 0 (POWERSHELL_SLEEP ++ rest)).
    change POWERSHELL_SLEEP with ("P"%char :: tl POWERSHELL_SLEEP) at 1 2.
    rewrite replace_from_occurrence.
    change ("P"%char :: tl POWERSHELL_SLEEP) with POWERSHELL_SLEEP.
    rewrite (replace_from_absent _ _ _ HP); cbn [app].
    unfold rest; rewrite strip_leading_space by exact H1.
    rewrite strip_trailing_space by exact H2.
    destruct (str_of_int_chars n) as (_ & _ & Hw).
    rewrite (strip_token _ Hw); apply int_str_of_int.
Qed.

(** X10.  An integer written after the sleep marker with no more digits
    than [int] accepts (4300), negative ones included, reaches [powercfg]
    unchanged: for the response [POWERSHELL_SLEEP:] followed by whitespace,
    the decimal text of [n] and whitespace, the one command launched is the
    [powercfg] command with the same decimal text, and on success the
    message names the same number; below that limit no range is checked.
    When [n] needs more digits, [int] refuses the text and the branch
    answers with the invalid-time message, launching nothing. *)
Theorem sleep_integer_round_trip :
  forall (n : Z) (ws1 ws2 : str),
    forallb is_space ws1 = true ->
    forallb is_space ws2 = true ->
    ((count_digits (str_of_int n) <=? int_max_str_digits)%N = true ->
     first_command
       (App.process_response (POWERSHELL_SLEEP ++ ws1 ++ str_of_int n ++ ws2))
     = Some (sleep_command n)
     /\ (forall (e : env) (rc : Z) (out : str),
            shell e (sleep_command n) = Completed rc out [] ->
            trace e (App.process_response
                       (POWERSHELL_SLEEP ++ ws1 ++ str_of_int n ++ ws2))
            = [ EvRun (sleep_command n);
                EvShow (ChatMessage (lit "assistant"));
                EvShow (Success (lit "Sleep timeout set to " ++ str_of_int n
                                 ++ lit " minutes.")) ]))
    /\ ((count_digits (str_of_int n) <=? int_max_str_digits)%N = false ->
        App.process_response (POWERSHELL_SLEEP ++ ws1 ++ str_of_int n ++ ws2)
        = Show (ChatMessage (lit "assistant"))
            (Show (Error App.invalid_time) (Ret tt))).
Proof.
  intros n ws1 ws2 H1 H2.
  destruct (sleep_response_dispatch ws1 ws2 n H1 H2) as (C1 & C2 & C3 & Hn).
  unfold App.process_response; rewrite C1, C2, C3.
  split.
  - intros Hd; rewrite Hd in Hn.
    split; [apply first_command_app_sleep; exact Hn|].
    intros e rc out Hsh.
    unfold App.sleep_branch; rewrite Hn; cbn [bind].
    rewrite app_run_command_answers; cbn [bind try_except trace].
    rewrite Hsh; reflexivity.
  - intros Hd; rewrite Hd in Hn.
    apply app_sleep_invalid; exact Hn.
Qed.

Lemma sleep_integer_round_trip_witness :
  first_command
    (App.process_response (POWERSHELL_SLEEP ++ lit " " ++ lit "-5" ++ [LF]))
  = Some (lit "powershell -Command " ++ [DQUOTE]
          ++ lit "powercfg /change /standby-timeout-ac -5" ++ [DQUOTE]).
Proof.
  exact (proj1 (proj1 (sleep_integer_round_trip (-5) (lit " ") [LF]
                         eq_refl eq_refl) eq_refl)).
Defined.

(** X11.  The [try] of the sleep branch spans the launch of the command:
    when [subprocess.run] raises [ValueError], or an exception of a class
    that derives from it such as [UnicodeDecodeError], while launching
    [powercfg] for a valid number, the branch answers "Invalid time
    provided for sleep settings. Please provide a number." and ends
    normally; an exception that is neither of those nor caught in
    [run_command] ends the run.  In the install branch nothing catches
    such a [ValueError]. *)
Theorem sleep_try_spans_the_command :
  forall (e : env) (r : str) (n : Z),
    int (strip (replace POWERSHELL_SLEEP [] r)) = Some n ->
    (forall x,
        shell e (sleep_command n) = Raised x ->
        is_value_error x = true ->
        trace e (App.sleep_branch r)
        = [ EvRun (sleep_command n);
            EvShow (ChatMessage (lit "assistant"));
            EvShow (Error App.invalid_time) ]
        /\ result e (App.sleep_branch r) = Some tt)
    /\ (forall x,
           shell e (sleep_command n) = Raised x ->
           caught_by_run_command x = false ->
           is_value_error x = false ->
           trace e (App.sleep_branch r) = [EvRun (sleep_command n); EvRaise x]
           /\ result e (App.sleep_branch r) = None)
    /\ (forall x,
           shell e (install_command (strip (replace WINGET_INSTALL [] r)))
           = Raised x ->
           is_value_error x = true ->
           trace e (App.install_branch r)
           = [ EvRun (install_command (strip (replace WINGET_INSTALL [] r)));
               EvRaise x ]
           /\ result e (App.install_branch r) = None).
Proof.
  intros e r n Hn.
  split; [|split].
  - intros x Hsh Hv; unfold App.sleep_branch; rewrite Hn; cbn [bind].
    rewrite app_run_command_answers; cbn [bind try_except trace result].
    rewrite Hsh.
    destruct x; try discriminate Hv; cbn [bind try_except trace result];
      rewrite ?Hv; split; reflexivity.
  - intros x Hsh Hx Hv; unfold App.sleep_branch; rewrite Hn; cbn [bind].
    rewrite app_run_command_answers; cbn [bind try_except trace result].
    rewrite Hsh.
    destruct x; try discriminate Hx; try discriminate Hv;
      cbn [bind try_except trace result]; rewrite ?Hv; split; reflexivity.
  - intros x Hsh Hv; unfold App.install_branch.
    rewrite app_run_command_answers; cbn [bind trace result].
    rewrite Hsh.
    destruct x; try discriminate Hv; split; reflexivity.
Qed.

Lemma sleep_try_spans_the_command_witness :
  trace (mk_env (fun _ => Raised (OtherError (lit "UnicodeDecodeError") true))
                (fun _ os => hd [] os) (fun _ => false))
        (App.sleep_branch (lit "POWERSHELL_SLEEP: 30"))
  = [ EvRun (sleep_command 30);
      EvShow (ChatMessage (lit "assistant"));
      EvShow (Error App.invalid_time) ].
Proof.
  exact (proj1 (proj1 (sleep_try_spans_the_command
                         (mk_env (fun _ => Raised (OtherError
                                                     (lit "UnicodeDecodeError")
                                                     true))
                                 (fun _ os => hd [] os) (fun _ => false))
                         (lit "POWERSHELL_SLEEP: 30") 30%Z eq_refl)
                  (OtherError (lit "UnicodeDecodeError") true)
                  eq_refl eq_refl)).
Defined.

(** X12.  The [run_command] of [ap2.py] returns what the one of [app.py]
    returns and launches the same command, its log records apart, for
    every answer of [subprocess.run] but [FileNotFoundError]; for that one
    both return an empty [stdout], with two different messages. *)
Theorem run_command_variants_agree :
  forall (e : env) (c : str),
    (shell e c <> Raised FileNotFoundError ->
     result e (Ap2.run_command c) = result e (App.run_command c)
     /\ visible (trace e (Ap2.run_command c)) = trace e (App.run_command c))
    /\ (shell e c = Raised FileNotFoundError ->
        result e (App.run_command c) = Some ([], App.not_found_text)
        /\ result e (Ap2.run_command c) = Some ([], Ap2.not_found_text))
    /\ App.not_found_text <> Ap2.not_found_text.
Proof.
  intros e c.
  rewrite app_run_command_answers.
  destruct (ap2_run_command_answers c) as [k [-> Hk]].
  cbn [result trace]; rewrite Hk.
  split; [|split].
  - intros Hne.
    destruct (shell e c) as [rc o s|[t| | | |x]]; try congruence;
      try (split; reflexivity).
    cbn; destruct (truthy s); split; reflexivity.
  - intros ->; split; reflexivity.
  - vm_compute; discriminate.
Qed.

Lemma run_command_variants_agree_witness :
  result (mk_env (fun _ => Completed 3 (lit "out") (lit "err"))
                 (fun _ os => hd [] os) (fun _ => false))
         (Ap2.run_command (lit "winget search vim"))
  = Some (lit "out", lit "err").
Proof.
  exact (proj1 (proj1 (run_command_variants_agree
                         (mk_env (fun _ => Completed 3 (lit "out") (lit "err"))
                                 (fun _ os => hd [] os) (fun _ => false))
                         (lit "winget search vim"))
                  ltac:(discriminate))).
Defined.

Lemma contains_infix (m pre post : str) :
  contains m (pre ++ m ++ post) = true.
Proof.
  induction pre as [|c pre IH].
  - cbn [app]; apply contains_starts_with, starts_with_app.
  - cbn [app contains]; rewrite IH; apply orb_true_r.
Qed.

(** X13.  The search marker is looked for anywhere in the response, and the
    search term is everything around it: for a response made of a text
    without the letter W, the marker, and a text without the marker, both
    scripts launch at once the search for the two texts put end to end and
    trimmed. *)
Theorem marker_anywhere_starts_search :
  forall pre post : str,
    forallb (fun c => negb (Ascii.eqb "W" c)) pre = true ->
    contains WINGET_SEARCH post = false ->
    first_command (App.process_response (pre ++ WINGET_SEARCH ++ post))
    = Some (search_command (strip (pre ++ post)))
    /\ first_command (Ap2.process_response (pre ++ WINGET_SEARCH ++ post))
       = Some (search_command (strip (pre ++ post))).
Proof.
  intros pre post Hpre Hpost.
  assert (Hr : replace WINGET_SEARCH [] (pre ++ WINGET_SEARCH ++ post)
               = pre ++ post).
  { change (replace WINGET_SEARCH [] (pre ++ WINGET_SEARCH ++ post))
      with (replace_from ("W"%char :: tl WINGET_SEARCH) [] 0
              (pre ++ ("W"%char :: tl WINGET_SEARCH) ++ post)).
    rewrite replace_from_copy by exact Hpre.
    rewrite replace_from_occurrence.
    change ("W"%char :: tl WINGET_SEARCH) with WINGET_SEARCH.
    rewrite (replace_from_absent _ _ _ Hpost); reflexivity. }
  unfold App.process_response, Ap2.process_response.
  rewrite contains_infix.
  rewrite first_command_app_search, first_command_ap2_search, Hr.
  split; reflexivity.
Qed.

Lemma marker_anywhere_starts_search_witness :
  first_command
    (App.process_response
       (lit "Sure, running " ++ WINGET_SEARCH ++ lit " vlc for you"))
  = Some (search_command (lit "Sure, running  vlc for you")).
Proof.
  exact (proj1 (marker_anywhere_starts_search
                  (lit "Sure, running ") (lit " vlc for you")
                  eq_refl eq_refl)).
Defined.
